(** * clidup: database handlers, handler factory, backup-file naming and
      the restore command

    A shallow embedding of the Python sources

    - [clidup/cli/main.py]          (filename decoding, the [restore] command),
    - [clidup/databases/factory.py] (the handler factory),
    - [clidup/databases/mysql.py], [mongodb.py], [sqlite.py] (the handlers),

    followed by the properties that the specification states about them.

    Conventions of the embedding.
    - A Python [str] is a [string]; a character is a code point below 256,
      so that [\d] of the [re] module is exactly ['0'..'9'].
    - A [pathlib.Path] is a parsed POSIX path; the world is asked about
      files by the string form [str(path)].
    - [datetime.now()] is an argument [now] of the functions that read the
      clock.
    - The outside world (process environment, [shutil.which], child
      processes, the file system, the terminal, and the modules of the
      repository that are not among the sources) is a record of oracles
      [World]; an oracle answers a call by its arguments alone.  A
      computation reads the world, appends to a trace of observable
      events, and either raises a Python exception or returns. *)

From Stdlib Require Import String Ascii List ZArith Lia Bool DecimalString.
From stdpp Require Import gmap strings.
Import ListNotations.

Open Scope string_scope.

(* stdpp blocks the unfolding of string concatenation; here it is wanted. *)
#[local] Arguments String.append !_ _ : simpl nomatch.

(** ** Python built-ins used by the sources *)

Module Py.

(** Truth value of a [str]: only the empty string is falsy. *)
Definition truthy (s : string) : bool :=
  match s with "" => false | String _ _ => true end.

(** Truth value of an [Optional[str]]. *)
Definition truthy_opt (o : option string) : bool :=
  match o with Some s => truthy s | None => false end.

(** [old in s] for strings. *)
Fixpoint contains (old s : string) : bool :=
  String.prefix old s ||
  match s with "" => false | String _ s' => contains old s' end.

(** Scan of [str.replace]: [skip] characters of a match found earlier are
    still to be dropped. *)
Fixpoint replace_from (old new : string) (skip : nat) (s : string) : string :=
  match s with
  | "" => ""
  | String c s' =>
      match skip with
      | S k => replace_from old new k s'
      | O =>
          if String.prefix old s
          then new ++ replace_from old new (String.length old - 1) s'
          else String c (replace_from old new 0 s')
      end
  end.

Fixpoint interleave (new s : string) : string :=
  match s with
  | "" => ""
  | String c s' => String c (new ++ interleave new s')
  end.

(** [s.replace(old, new)]: every occurrence, leftmost first, occurrences do
    not overlap; an empty [old] matches between any two characters. *)
Definition replace (s old new : string) : string :=
  match old with
  | "" => new ++ interleave new s
  | String _ _ => replace_from old new 0 s
  end.

(** [str.isspace] on one code point below 256. *)
Definition isspace (a : ascii) : bool :=
  let n := nat_of_ascii a in
  (((9 <=? n) && (n <=? 13)) || ((28 <=? n) && (n <=? 32))
   || (n =? 133) || (n =? 160))%nat.

Fixpoint lstrip_list (l : list ascii) : list ascii :=
  match l with
  | a :: l' => if isspace a then lstrip_list l' else l
  | [] => []
  end.

(** [s.strip()] *)
Definition strip (s : string) : string :=
  string_of_list_ascii
    (rev (lstrip_list (rev (lstrip_list (list_ascii_of_string s))))).

(** [s.split(sep)] for a one-character separator. *)
Fixpoint split (s : string) (sep : ascii) : list string :=
  match s with
  | "" => [""]
  | String c s' =>
      if Ascii.eqb c sep then "" :: split s' sep
      else match split s' sep with
           | h :: t => String c h :: t
           | [] => [String c ""]
           end
  end.

(** [str(n)] for an [int]. *)
Definition str_int (n : Z) : string := NilZero.string_of_int (Z.to_int n).

Definition hex_digit (n : nat) : ascii :=
  if (n <? 10)%nat then ascii_of_nat (48 + n) else ascii_of_nat (87 + n).

(** Code points below 256 that [repr] prints as they are. *)
Definition isprintable (a : ascii) : bool :=
  let n := nat_of_ascii a in
  (((32 <=? n) && (n <? 127)) || ((161 <=? n) && negb (n =? 173)))%nat.

Definition repr_char (quote a : ascii) : string :=
  if Ascii.eqb a quote || Ascii.eqb a "\" then String "\" (String a "")
  else if Ascii.eqb a "009" then "\t"
  else if Ascii.eqb a "010" then "\n"
  else if Ascii.eqb a "013" then "\r"
  else if isprintable a then String a ""
  else let n := nat_of_ascii a in
       String "\" (String "x" (String (hex_digit (n / 16))
                                 (String (hex_digit (n mod 16)) ""))).

Fixpoint repr_body (quote : ascii) (s : string) : string :=
  match s with
  | "" => ""
  | String a s' => repr_char quote a ++ repr_body quote s'
  end.

Definition dquote : ascii := ascii_of_nat 34.
Definition squote : ascii := ascii_of_nat 39.

(** [repr(s)] for a [str]: single quotes, unless the text has a single
    quote and no double quote. *)
Definition repr_str (s : string) : string :=
  let quote :=
    if contains (String squote "") s && negb (contains (String dquote "") s)
    then dquote else squote in
  String quote (repr_body quote s ++ String quote "").

Fixpoint join (sep : string) (l : list string) : string :=
  match l with
  | [] => ""
  | [x] => x
  | x :: l' => x ++ sep ++ join sep l'
  end.

(** [repr(l)], which is also [str(l)], for a list of [str]. *)
Definition repr_list (l : list string) : string :=
  "[" ++ join ", " (map repr_str l) ++ "]".

End Py.

(** ** The fragment of Python's [re] used by [main.py]

    A backtracking matcher in continuation-passing style.  [pos] is the
    offset of the remaining input in the subject; the only capturing group
    of the pattern is group 1. *)

Module Re.

Inductive cclass :=
  | Digit   (* \d *)
  | Dot.    (* .  : anything but a newline *)

Definition is_digit (a : ascii) : bool :=
  let n := nat_of_ascii a in ((48 <=? n) && (n <=? 57))%nat.

Definition newline : ascii := "010".

Definition cclass_match (c : cclass) (a : ascii) : bool :=
  match c with
  | Digit => is_digit a
  | Dot => negb (Ascii.eqb a newline)
  end.

Inductive regex :=
  | Bol                          (* ^ *)
  | Eol                          (* $ *)
  | Lit (s : string)             (* literal text *)
  | Rep (c : cclass) (n : nat)   (* c{n} *)
  | LazyPlus (c : cclass)        (* c+? *)
  | Opt (r : regex)              (* (?:r)? , greedy *)
  | Group (r : regex)            (* (r) , group 1 *)
  | Seq (r1 r2 : regex).

(** What a successful match reports: the text of group 1, if it took part. *)
Definition groups := option string.

Definition cont := nat -> string -> groups -> option groups.

Fixpoint strip_prefix (p s : string) : option string :=
  match p with
  | "" => Some s
  | String a p' =>
      match s with
      | String b s' => if Ascii.eqb a b then strip_prefix p' s' else None
      | "" => None
      end
  end.

Fixpoint exec_rep (c : cclass) (n : nat) (pos : nat) (s : string)
    (g : groups) (k : cont) : option groups :=
  match n with
  | O => k pos s g
  | S n' =>
      match s with
      | String a s' =>
          if cclass_match c a then exec_rep c n' (S pos) s' g k else None
      | "" => None
      end
  end.

(** [c+?]: take one character, then prefer to stop. *)
Fixpoint exec_lazy_plus (c : cclass) (pos : nat) (s : string)
    (g : groups) (k : cont) : option groups :=
  match s with
  | String a s' =>
      if cclass_match c a then
        match k (S pos) s' g with
        | Some m => Some m
        | None => exec_lazy_plus c (S pos) s' g k
        end
      else None
  | "" => None
  end.

Fixpoint exec (r : regex) (pos : nat) (s : string) (g : groups) (k : cont)
    : option groups :=
  match r with
  | Bol => if (pos =? 0)%nat then k pos s g else None
  | Eol =>
      match s with
      | "" => k pos s g
      | String a "" => if Ascii.eqb a newline then k pos s g else None
      | _ => None
      end
  | Lit p =>
      match strip_prefix p s with
      | Some s' => k (pos + String.length p) s' g
      | None => None
      end
  | Rep c n => exec_rep c n pos s g k
  | LazyPlus c => exec_lazy_plus c pos s g k
  | Opt r1 =>
      match exec r1 pos s g k with
      | Some m => Some m
      | None => k pos s g
      end
  | Group r1 =>
      exec r1 pos s g
        (fun pos' s' _ => k pos' s' (Some (substring 0 (pos' - pos) s)))
  | Seq r1 r2 => exec r1 pos s g (fun pos' s' g' => exec r2 pos' s' g' k)
  end.

(** [re.match(pattern, s)]: a match anchored at the start of [s]. *)
Definition match_ (pattern : regex) (s : string) : option groups :=
  exec pattern 0 s None (fun _ _ g => Some g).

(** [re.fullmatch(pattern, s)] *)
Definition fullmatch (pattern : regex) (s : string) : option groups :=
  exec pattern 0 s None
    (fun _ s' g => match s' with "" => Some g | _ => None end).

Fixpoint seq (l : list regex) : regex :=
  match l with
  | [] => Lit ""
  | [r] => r
  | r :: l' => Seq r (seq l')
  end.

End Re.

(** ** [datetime.now().strftime(...)] *)

Record datetime := {
  year : Z; month : Z; day : Z;
  hour : Z; minute : Z; second : Z;
  microsecond : Z
}.

(** The values [datetime.now()] can return for which [strftime] does not
    depend on the platform (four-digit years). *)
Definition valid_datetime (t : datetime) : Prop :=
  (1000 <= year t <= 9999 /\ 1 <= month t <= 12 /\ 1 <= day t <= 31 /\
   0 <= hour t <= 23 /\ 0 <= minute t <= 59 /\ 0 <= second t <= 59 /\
   0 <= microsecond t <= 999999)%Z.

Definition digit_char (d : Z) : ascii := ascii_of_nat (48 + Z.to_nat d).

Fixpoint fixed_digits (w : nat) (n : Z) : string :=
  match w with
  | O => ""
  | S w' =>
      fixed_digits w' (n / 10) ++ String (digit_char (n mod 10)) ""
  end.

(** A decimal number padded with zeros to width [w]. *)
Definition zero_pad (w : nat) (n : Z) : string :=
  if ((0 <=? n) && (n <? 10 ^ Z.of_nat w))%Z then fixed_digits w n
  else Py.str_int n.

Definition directive (t : datetime) (d : ascii) : string :=
  if Ascii.eqb d "Y" then zero_pad 4 (year t)
  else if Ascii.eqb d "m" then zero_pad 2 (month t)
  else if Ascii.eqb d "d" then zero_pad 2 (day t)
  else if Ascii.eqb d "H" then zero_pad 2 (hour t)
  else if Ascii.eqb d "M" then zero_pad 2 (minute t)
  else if Ascii.eqb d "S" then zero_pad 2 (second t)
  else if Ascii.eqb d "%" then "%"
  else String "%" (String d "").

(** [t.strftime(fmt)] for the directives the sources use. *)
Fixpoint strftime (t : datetime) (fmt : string) : string :=
  match fmt with
  | "" => ""
  | String "%" (String d fmt') => directive t d ++ strftime t fmt'
  | String c fmt' => String c (strftime t fmt')
  end.

(** The timestamp of the backup names. *)
Definition timestamp (now : datetime) : string :=
  strftime now "%Y-%m-%d_%H-%M-%S".

(** ** [clidup/cli/main.py]: decoding a backup file name *)

(** [r'^postgres_(.+?)_full_\d{4}-\d{2}-\d{2}_\d{2}-\d{2}(?:-\d{2})?$'] *)
Definition pattern : Re.regex :=
  Re.seq [ Re.Bol; Re.Lit "postgres_"; Re.Group (Re.LazyPlus Re.Dot);
           Re.Lit "_full_";
           Re.Rep Re.Digit 4; Re.Lit "-"; Re.Rep Re.Digit 2; Re.Lit "-";
           Re.Rep Re.Digit 2; Re.Lit "_";
           Re.Rep Re.Digit 2; Re.Lit "-"; Re.Rep Re.Digit 2;
           Re.Opt (Re.Seq (Re.Lit "-") (Re.Rep Re.Digit 2));
           Re.Eol ].

Definition extract_db_name_from_filename (filename : string) : option string :=
  (* Remove common extensions *)
  let name :=
    Py.replace (Py.replace (Py.replace filename ".tar.gz" "") ".tar" "")
               ".sql" "" in
  match Re.match_ pattern name with
  | Some g => g          (* match.group(1) *)
  | None => None
  end.

(** ** [pathlib.Path] (POSIX flavour) *)

Module Path.

(** A parsed path: the root (empty for a relative path) and the
    components; empty and [.] components are dropped when parsing. *)
Record t := { root : string; parts : list string }.

Definition slash : ascii := "/".

Definition keep_part (x : string) : bool :=
  negb (String.eqb x "" || String.eqb x ".").

Definition root_of (s : string) : string :=
  match s with
  | String "/" (String "/" (String "/" _)) => "/"
  | String "/" (String "/" _) => "//"
  | String "/" _ => "/"
  | _ => ""
  end.

(** [Path(s)] *)
Definition of_str (s : string) : t :=
  {| root := root_of s; parts := filter keep_part (Py.split s slash) |}.

(** [str(p)] *)
Definition str (p : t) : string :=
  match root p, parts p with
  | "", [] => "."
  | r, l => r ++ Py.join "/" l
  end.

(** [p.name] *)
Definition name (p : t) : string := List.last (parts p) "".

Fixpoint rfind (s : string) (a : ascii) : option nat :=
  match s with
  | "" => None
  | String b s' =>
      match rfind s' a with
      | Some i => Some (S i)
      | None => if Ascii.eqb a b then Some 0 else None
      end
  end.

(** [p.stem]: the name without its last suffix (Python 3.12). *)
Definition stem (p : t) : string :=
  let n := name p in
  match rfind n "." with
  | Some i =>
      if ((0 <? i) && (i <? String.length n - 1))%nat
      then substring 0 i n else n
  | None => n
  end.

(** [p.parent] *)
Definition parent (p : t) : t :=
  {| root := root p; parts := removelast (parts p) |}.

(** [p / s] *)
Definition div (p : t) (s : string) : t :=
  match root_of s with
  | "" => {| root := root p; parts := (parts p ++ parts (of_str s))%list |}
  | _ => of_str s
  end.

End Path.

(** ** Exceptions *)

Inductive exn :=
  | ValueError (msg : string)
  | RuntimeError (msg : string)
  | FileNotFoundError (filename : string)
  | OSError (msg : string)
  | TimeoutExpired (cmd : list string) (timeout : Z)
  | CalledProcessError (returncode : Z) (cmd : list string)
                       (stdout stderr : string)
  | Exit (code : Z)     (* typer.Exit, a subclass of RuntimeError *)
  | Abort.              (* typer.Abort, a subclass of RuntimeError *)

Definition nl : string := String Re.newline "".

(** ** The outside world *)

(** The configuration mapping a handler is built from: the keys the
    handlers read; [None] stands for an absent key. *)
Record Config := {
  cfg_host : option string;
  cfg_port : option Z;
  cfg_username : option string;
  cfg_password : option string;
  cfg_database : option string;
  cfg_auth_database : option string;
  cfg_db_path : option string
}.

(** Modelled from the spec: the configuration collaborator [ConfigLoader]
    ([clidup/config/loader.py] is not among the sources).  Section 6: it
    exposes a resolved backup directory and, per backend tag, a resolved
    mapping, failing with a [ValueError] when the secret is absent. *)
Record ConfigLoader := {
  get_backup_directory : Path.t;
  get_postgres_config : exn + Config
}.

(** One call of [subprocess.run]. *)
Record proc_call := {
  call_argv : list string;
  call_env : gmap string string;    (* the environment the child sees *)
  call_stdin : option string;       (* file connected to its stdin *)
  call_timeout : Z                  (* seconds *)
}.

(** The handler methods the restore orchestration calls. *)
Inductive method := Validate_tools | Restore.

(** What a child process does when it is left alone. *)
Inductive child :=
  | Runs (seconds returncode : Z) (stdout stderr : string)
  | Hangs
  | CannotStart (e : exn).

Record World := {
  os_environ : gmap string string;
  which : string -> option string;            (* shutil.which *)
  child_of : proc_call -> child;
  open_read : string -> option exn;           (* open(p, 'r'); None: opened *)
  path_exists : string -> bool;               (* Path.exists *)
  access_read : string -> bool;               (* os.access(p, os.R_OK) *)
  copy2 : string -> string -> option exn;     (* shutil.copy2 *)
  confirm_answer : string -> string -> bool;  (* the user at the prompt *)
  signal_name : Z -> option string;           (* signal.Signals(n).name *)
  load_config : option string -> exn + ConfigLoader;  (* ConfigLoader(path) *)
  logger_setup : string -> option exn;        (* setup_logger(log_file=p) *)
  postgres_method : method -> list string -> option exn
    (* what a method of the Postgres handler does; None: it returns *)
}.

Inductive level := DEBUG | INFO | WARNING | ERROR.

Inductive event :=
  | Log (l : level) (msg : string)
  | Spawn (c : proc_call)
  | Open (path : string)
  | Copy (src dst : string)
  | Echo (msg : string) (err : bool)
  | Confirm (db_name input_file : string)
  | Invoke (m : method) (args : list string).

(** [str(e)] *)
Definition str_exn (w : World) (e : exn) : string :=
  match e with
  | ValueError msg | RuntimeError msg | OSError msg => msg
  | FileNotFoundError f =>
      "[Errno 2] No such file or directory: " ++ Py.repr_str f
  | TimeoutExpired cmd timeout =>
      "Command '" ++ Py.repr_list cmd ++ "' timed out after "
      ++ Py.str_int timeout ++ " seconds"
  | CalledProcessError rc cmd _ _ =>
      if (rc <? 0)%Z then
        match signal_name w (- rc) with
        | Some n =>
            "Command '" ++ Py.repr_list cmd ++ "' died with <Signals." ++ n
            ++ ": " ++ Py.str_int (- rc) ++ ">."
        | None =>
            "Command '" ++ Py.repr_list cmd ++ "' died with unknown signal "
            ++ Py.str_int (- rc) ++ "."
        end
      else "Command '" ++ Py.repr_list cmd
           ++ "' returned non-zero exit status " ++ Py.str_int rc ++ "."
  | Exit _ | Abort => ""
  end.

(** ** Computations: read the world, log events, raise or return *)

Definition M (A : Type) : Type := World -> list event * (exn + A).

Definition ret {A} (a : A) : M A := fun _ => ([], inr a).

Definition raise {A} (e : exn) : M A := fun _ => ([], inl e).

Definition bind {A B} (m : M A) (f : A -> M B) : M B :=
  fun w =>
    match m w with
    | (tr, inl e) => (tr, inl e)
    | (tr, inr a) => let '(tr', r) := f a w in ((tr ++ tr')%list, r)
    end.

Notation "x <- m ;; k" := (bind m (fun x => k))
  (at level 100, m at next level, right associativity).
Notation "m ;;; k" := (bind m (fun _ => k))
  (at level 100, right associativity).

Definition tell (e : event) : M unit := fun _ => ([e], inr tt).

Definition ask : M World := fun w => ([], inr w).

(** [try: body  except ...:]; [handler e] is the first clause that
    catches [e], if any. *)
Definition try_except {A} (body : M A) (handler : exn -> option (M A)) : M A :=
  fun w =>
    match body w with
    | (tr, inr a) => (tr, inr a)
    | (tr, inl e) =>
        match handler e with
        | Some h => let '(tr', r) := h w in ((tr ++ tr')%list, r)
        | None => (tr, inl e)
        end
    end.

Definition trace {A} (m : M A) (w : World) : list event := fst (m w).
Definition outcome {A} (m : M A) (w : World) : exn + A := snd (m w).

(** The child processes started during a run. *)
Definition spawned (tr : list event) : list proc_call :=
  omap (fun e => match e with Spawn c => Some c | _ => None end) tr.

Definition logger_debug (msg : string) : M unit := tell (Log DEBUG msg).
Definition logger_info (msg : string) : M unit := tell (Log INFO msg).
Definition logger_warning (msg : string) : M unit := tell (Log WARNING msg).
Definition logger_error (msg : string) : M unit := tell (Log ERROR msg).

Definition shutil_which (tool : string) : M (option string) :=
  fun w => ([], inr (which w tool)).

Record CompletedProcess := {
  returncode : Z; stdout : string; stderr : string
}.

(** [subprocess.run(args, env=..., stdin=..., capture_output=True,
    text=True, timeout=..., check=...)]: a child still running when the
    timeout expires is killed and [TimeoutExpired] is raised. *)
Definition subprocess_run (args : list string)
    (env : option (gmap string string)) (stdin : option Path.t)
    (timeout : Z) (check : bool) : M CompletedProcess :=
  fun w =>
    let call := {| call_argv := args;
                   call_env := default (os_environ w) env;
                   call_stdin := Path.str <$> stdin;
                   call_timeout := timeout |} in
    ([Spawn call],
     match child_of w call with
     | CannotStart e => inl e
     | Hangs => inl (TimeoutExpired args timeout)
     | Runs seconds rc out err =>
         if (timeout <? seconds)%Z then inl (TimeoutExpired args timeout)
         else if check && negb (rc =? 0)%Z
              then inl (CalledProcessError rc args out err)
              else inr {| returncode := rc; stdout := out; stderr := err |}
     end).

(** [with open(path, 'r') as f: body] *)
Definition with_open {A} (path : Path.t) (body : M A) : M A :=
  fun w =>
    match open_read w (Path.str path) with
    | Some e => ([Open (Path.str path)], inl e)
    | None => let '(tr, r) := body w in (Open (Path.str path) :: tr, r)
    end.

Definition shutil_copy2 (src dst : Path.t) : M unit :=
  fun w =>
    ([Copy (Path.str src) (Path.str dst)],
     match copy2 w (Path.str src) (Path.str dst) with
     | Some e => inl e
     | None => inr tt
     end).

Definition typer_echo (msg : string) (err : bool) : M unit :=
  tell (Echo msg err).

(** ** [clidup/databases/mysql.py] *)

Module MySQLHandler.

Record t := {
  host : string;
  port : Z;
  username : string;
  password : string;
  default_database : string
}.

(** [__init__] *)
Definition init (config : Config) : t :=
  {| host := default "localhost" (cfg_host config);
     port := default 3306%Z (cfg_port config);
     username := default "root" (cfg_username config);
     password := default "" (cfg_password config);
     default_database := default "" (cfg_database config) |}.

(** [_get_env] *)
Definition _get_env (self : t) : M (gmap string string) :=
  w <- ask ;;
  let env := os_environ w in
  ret (if Py.truthy (password self)
       then <["MYSQL_PWD" := password self]> env
       else env).

Definition validate_connection_cmd (self : t) : list string :=
  [ "mysql";
    "-h"; host self;
    "-P"; Py.str_int (port self);
    "-u"; username self;
    "-e"; "SELECT 1;" ].

Definition validate_connection (self : t) : M bool :=
  logger_debug ("Testing connection to MySQL at " ++ host self ++ ":"
                ++ Py.str_int (port self)) ;;;
  let cmd := validate_connection_cmd self in
  try_except
    (env <- _get_env self ;;
     subprocess_run cmd (Some env) None 10 true ;;;
     logger_debug "MySQL connection test successful" ;;;
     ret true)
    (fun e =>
       match e with
       | TimeoutExpired _ _ =>
           Some (raise (RuntimeError
             ("Connection timeout to MySQL at " ++ host self ++ ":"
              ++ Py.str_int (port self) ++ ". "
              ++ "Check that the server is running and network is accessible.")))
       | CalledProcessError _ _ _ err =>
           Some (w <- ask ;;
                 let error_detail :=
                   if Py.truthy err then Py.strip err else str_exn w e in
                 raise (RuntimeError
                   ("Cannot connect to MySQL at " ++ host self ++ ":"
                    ++ Py.str_int (port self) ++ ". "
                    ++ "Check credentials and server status. Error: "
                    ++ error_detail)))
       | _ => None
       end).

Definition validate_tools (self : t) : M bool :=
  mysqldump <- shutil_which "mysqldump" ;;
  if negb (Py.truthy_opt mysqldump) then
    raise (RuntimeError
      ("mysqldump not found. Please install MySQL client tools." ++ nl
       ++ "Download from: https://dev.mysql.com/downloads/"))
  else
  mysql <- shutil_which "mysql" ;;
  if negb (Py.truthy_opt mysql) then
    raise (RuntimeError
      ("mysql client not found. Please install MySQL client tools." ++ nl
       ++ "Download from: https://dev.mysql.com/downloads/"))
  else
  logger_debug "MySQL tools validated successfully" ;;;
  validate_connection self ;;;
  ret true.

(** [get_default_backup_name]; [now] is the value of [datetime.now()]. *)
Definition get_default_backup_name (self : t) (database : string)
    (now : datetime) : string :=
  let timestamp := strftime now "%Y-%m-%d_%H-%M-%S" in
  "mysql_" ++ database ++ "_full_" ++ timestamp ++ ".sql".

Definition _database_exists_cmd (self : t) (database : string) : list string :=
  [ "mysql";
    "-h"; host self;
    "-P"; Py.str_int (port self);
    "-u"; username self;
    "-e"; "SHOW DATABASES LIKE '" ++ database ++ "';" ].

Definition _database_exists (self : t) (database : string) : M bool :=
  let cmd := _database_exists_cmd self database in
  try_except
    (env <- _get_env self ;;
     result <- subprocess_run cmd (Some env) None 10 true ;;
     ret (1 <? length (Py.split (Py.strip (stdout result)) Re.newline))%nat)
    (fun e =>
       match e with
       | CalledProcessError _ _ _ _ | TimeoutExpired _ _ =>
           Some (logger_warning ("Could not check if database '" ++ database
                                 ++ "' exists") ;;;
                 ret true)  (* Assume it exists to avoid blocking restore *)
       | _ => None
       end).

Definition backup_cmd (self : t) (database : string) (output_file : Path.t)
    : list string :=
  [ "mysqldump";
    "-h"; host self;
    "-P"; Py.str_int (port self);
    "-u"; username self;
    "--result-file"; Path.str output_file;
    database ].

Definition backup (self : t) (database : string) (output_file : Path.t)
    : M unit :=
  logger_info ("Starting MySQL backup of database '" ++ database ++ "'") ;;;
  let cmd := backup_cmd self database output_file in
  try_except
    (env <- _get_env self ;;
     subprocess_run cmd (Some env) None 3600 true ;;;
     logger_debug "mysqldump completed successfully")
    (fun e =>
       match e with
       | CalledProcessError _ _ _ err =>
           Some (w <- ask ;;
                 let error_msg :=
                   "Backup failed: "
                   ++ (if Py.truthy err then err else str_exn w e) in
                 logger_error error_msg ;;;
                 raise (RuntimeError error_msg))
       | _ =>
           Some (w <- ask ;;
                 let error_msg :=
                   "Unexpected error during backup: " ++ str_exn w e in
                 logger_error error_msg ;;;
                 raise (RuntimeError error_msg))
       end).

Definition restore_cmd (self : t) (database : string) : list string :=
  [ "mysql";
    "-h"; host self;
    "-P"; Py.str_int (port self);
    "-u"; username self;
    database ].

Definition restore (self : t) (database : string) (input_file : Path.t)
    : M unit :=
  logger_info ("Starting MySQL restore to database '" ++ database ++ "'") ;;;
  let cmd := restore_cmd self database in
  try_except
    (with_open input_file
       (env <- _get_env self ;;
        subprocess_run cmd (Some env) (Some input_file) 3600 true ;;;
        ret tt) ;;;
     logger_debug "mysql restore completed successfully")
    (fun e =>
       match e with
       | FileNotFoundError _ =>
           Some (raise (RuntimeError
                   ("Backup file not found: " ++ Path.str input_file)))
       | CalledProcessError _ _ _ err =>
           Some (w <- ask ;;
                 let error_msg :=
                   "Restore failed: "
                   ++ (if Py.truthy err then err else str_exn w e) in
                 (* Check for "Unknown database" error *)
                 let error_msg :=
                   if Py.contains "Unknown database" error_msg
                   then error_msg ++ nl
                        ++ "Hint: Create the database first with: "
                        ++ "CREATE DATABASE " ++ database ++ ";"
                   else error_msg in
                 logger_error error_msg ;;;
                 raise (RuntimeError error_msg))
       | _ =>
           Some (w <- ask ;;
                 let error_msg :=
                   "Unexpected error during restore: " ++ str_exn w e in
                 logger_error error_msg ;;;
                 raise (RuntimeError error_msg))
       end).

End MySQLHandler.

(** ** [clidup/databases/mongodb.py] *)

Module MongoDBHandler.

Record t := {
  host : string;
  port : Z;
  username : string;
  password : string;
  database : string;
  auth_db : string
}.

(** [__init__] *)
Definition init (config : Config) : t :=
  {| host := default "localhost" (cfg_host config);
     port := default 27017%Z (cfg_port config);
     username := default "" (cfg_username config);
     password := default "" (cfg_password config);
     database := default "" (cfg_database config);
     auth_db := default "admin" (cfg_auth_database config) |}.

(** [_build_base_cmd]: base command with connection args *)
Definition _build_base_cmd (self : t) (tool : string) : list string :=
  let cmd := [ tool; "--host"; host self; "--port"; Py.str_int (port self) ] in
  if Py.truthy (username self) then
    (cmd ++ [ "--username"; username self ]
         ++ [ "--password"; password self ]
         ++ [ "--authenticationDatabase"; auth_db self ])%list
  else cmd.

Definition validate_connection_cmd (self : t) : list string :=
  (_build_base_cmd self "mongosh"
   ++ [ "--eval"; "db.runCommand({ ping: 1 })" ])%list.

Definition validate_connection (self : t) : M bool :=
  logger_debug ("Testing connection to MongoDB at " ++ host self ++ ":"
                ++ Py.str_int (port self)) ;;;
  mongosh <- shutil_which "mongosh" ;;
  if Py.truthy_opt mongosh then
    let cmd := validate_connection_cmd self in
    try_except
      (subprocess_run cmd None None 10 true ;;;
       logger_debug "MongoDB connection test successful via mongosh" ;;;
       ret true)
      (fun e =>
         match e with
         | TimeoutExpired _ _ =>
             Some (raise (RuntimeError
               ("Connection timeout to MongoDB at " ++ host self ++ ":"
                ++ Py.str_int (port self))))
         | CalledProcessError _ _ _ err =>
             Some (w <- ask ;;
                   let error_msg :=
                     if Py.truthy err then err else str_exn w e in
                   raise (RuntimeError
                            ("Cannot connect to MongoDB: " ++ error_msg)))
         | _ => None
         end)
  else
    logger_debug ("mongosh not found, skipping explicit connection test "
                  ++ "(will be tested during backup)") ;;;
    ret true.

Definition validate_tools (self : t) : M bool :=
  mongodump <- shutil_which "mongodump" ;;
  if negb (Py.truthy_opt mongodump) then
    raise (RuntimeError
      ("mongodump not found. Please install MongoDB Database Tools." ++ nl
       ++ "Download from: https://www.mongodb.com/try/download/database-tools"))
  else
  mongorestore <- shutil_which "mongorestore" ;;
  if negb (Py.truthy_opt mongorestore) then
    raise (RuntimeError
      ("mongorestore not found. Please install MongoDB Database Tools." ++ nl
       ++ "Download from: https://www.mongodb.com/try/download/database-tools"))
  else
  logger_debug "MongoDB tools validated successfully" ;;;
  validate_connection self ;;;
  ret true.

(** [get_default_backup_name]; [now] is the value of [datetime.now()]. *)
Definition get_default_backup_name (self : t) (database_ : string)
    (now : datetime) : string :=
  let timestamp := strftime now "%Y-%m-%d_%H-%M-%S" in
  let db_part :=
    if Py.truthy database_ then database_
    else if Py.truthy (database self) then database self else "all" in
  "mongo_" ++ db_part ++ "_" ++ timestamp ++ ".archive".

Definition or_str (a b : string) : string := if Py.truthy a then a else b.

Definition backup_cmd (self : t) (database_ : string) (output_file : Path.t)
    : list string :=
  let target_db := if Py.truthy database_ then database_ else database self in
  let cmd :=
    (_build_base_cmd self "mongodump"
     ++ [ ("--archive=" ++ Path.str output_file)%string; "--gzip" ])%list in
  if Py.truthy target_db then (cmd ++ [ "--db"; target_db ])%list else cmd.

Definition backup (self : t) (database_ : string) (output_file : Path.t)
    : M unit :=
  let target_db := if Py.truthy database_ then database_ else database self in
  logger_info ("Starting MongoDB backup for database '"
               ++ or_str target_db "ALL" ++ "'") ;;;
  let cmd := backup_cmd self database_ output_file in
  try_except
    (subprocess_run cmd None None 3600 true ;;;
     logger_debug "mongodump completed successfully")
    (fun e =>
       match e with
       | CalledProcessError _ _ _ err =>
           Some (w <- ask ;;
                 let error_msg :=
                   "Backup failed: "
                   ++ (if Py.truthy err then err else str_exn w e) in
                 logger_error error_msg ;;;
                 raise (RuntimeError error_msg))
       | _ => None
       end).

Definition restore_cmd (self : t) (input_file : Path.t) : list string :=
  (_build_base_cmd self "mongorestore"
   ++ [ ("--archive=" ++ Path.str input_file)%string; "--gzip" ])%list.

Definition restore (self : t) (database_ : string) (input_file : Path.t)
    : M unit :=
  let target_db := if Py.truthy database_ then database_ else database self in
  logger_info ("Starting MongoDB restore to database '"
               ++ or_str target_db "original" ++ "'") ;;;
  let cmd := restore_cmd self input_file in
  try_except
    (subprocess_run cmd None None 3600 true ;;;
     logger_debug "mongorestore completed successfully")
    (fun e =>
       match e with
       | CalledProcessError _ _ _ err =>
           Some (w <- ask ;;
                 let error_msg :=
                   "Restore failed: "
                   ++ (if Py.truthy err then err else str_exn w e) in
                 logger_error error_msg ;;;
                 raise (RuntimeError error_msg))
       | _ => None
       end).

End MongoDBHandler.

(** ** [clidup/databases/sqlite.py] *)

Module SQLiteHandler.

Record t := { db_path : Path.t }.

(** [__init__] *)
Definition init (config : Config) : t :=
  {| db_path := Path.of_str (default "data.db" (cfg_db_path config)) |}.

Definition validate_tools (self : t) : M bool := ret true.

Definition validate_connection (self : t) : M bool :=
  w <- ask ;;
  if negb (path_exists w (Path.str (Path.parent (db_path self)))) then
    raise (RuntimeError ("Directory " ++ Path.str (Path.parent (db_path self))
                         ++ " does not exist"))
  else
  if path_exists w (Path.str (db_path self))
     && negb (access_read w (Path.str (db_path self))) then
    raise (RuntimeError ("Database file " ++ Path.str (db_path self)
                         ++ " is not readable"))
  else
  logger_debug ("SQLite database path validated: "
                ++ Path.str (db_path self)) ;;;
  ret true.

(** [get_default_backup_name]; [now] is the value of [datetime.now()]. *)
Definition get_default_backup_name (self : t) (database : string)
    (now : datetime) : string :=
  let timestamp := strftime now "%Y-%m-%d_%H-%M-%S" in
  let name := Path.stem (db_path self) in
  (* If database arg is provided and different from stem, use it,
     otherwise use stem *)
  let name :=
    if Py.truthy database && negb (String.eqb database "sqlite")
    then database else name in
  "sqlite_" ++ name ++ "_full_" ++ timestamp ++ ".db".

Definition backup (self : t) (database : string) (output_file : Path.t)
    : M unit :=
  logger_info ("Starting SQLite backup of '" ++ Path.str (db_path self)
               ++ "'") ;;;
  w <- ask ;;
  if negb (path_exists w (Path.str (db_path self))) then
    raise (RuntimeError ("Database file " ++ Path.str (db_path self)
                         ++ " does not exist"))
  else
  try_except
    (shutil_copy2 (db_path self) output_file ;;;
     logger_debug ("File copied successfully to " ++ Path.str output_file))
    (fun e =>
       Some (let error_msg :=
               "Unexpected error during backup: " ++ str_exn w e in
             logger_error error_msg ;;;
             raise (RuntimeError error_msg))).

Definition restore (self : t) (database : string) (input_file : Path.t)
    : M unit :=
  logger_info ("Starting SQLite restore to '" ++ Path.str (db_path self)
               ++ "'") ;;;
  try_except
    (shutil_copy2 input_file (db_path self) ;;;
     logger_debug ("File restored successfully from "
                   ++ Path.str input_file))
    (fun e =>
       match e with
       | FileNotFoundError _ =>
           Some (raise (RuntimeError
                   ("Backup file not found: " ++ Path.str input_file)))
       | _ =>
           Some (w <- ask ;;
                 let error_msg :=
                   "Unexpected error during restore: " ++ str_exn w e in
                 logger_error error_msg ;;;
                 raise (RuntimeError error_msg))
       end).

End SQLiteHandler.

(** Modelled from the spec: [PostgresHandler]
    ([clidup/databases/postgres.py] is not among the sources).  Section 4.3:
    construction only binds the configuration.  The backup name is the
    format that [main.py] documents for its decoder and prints in its
    guidance message; what the other methods do is the world's business. *)
Module PostgresHandler.

Record t := { config : Config }.

Definition init (config : Config) : t := {| config := config |}.

Definition call (m : method) (args : list string) : M unit :=
  fun w =>
    ([], match postgres_method w m args with Some e => inl e | None => inr tt end).

Definition validate_tools (self : t) : M bool :=
  call Validate_tools [] ;;; ret true.

Definition restore (self : t) (database : string) (input_file : Path.t)
    : M unit :=
  call Restore [database; Path.str input_file].

Definition get_default_backup_name (self : t) (database : string)
    (now : datetime) : string :=
  let timestamp := strftime now "%Y-%m-%d_%H-%M-%S" in
  "postgres_" ++ database ++ "_full_" ++ timestamp ++ ".sql".

End PostgresHandler.

(** ** [clidup/databases/factory.py] *)

(** An instance of one of the handler classes. *)
Inductive DatabaseHandler :=
  | Postgres (h : PostgresHandler.t)
  | MySQL (h : MySQLHandler.t)
  | SQLite (h : SQLiteHandler.t)
  | MongoDB (h : MongoDBHandler.t).

Module DatabaseFactory.

Inductive handler_class :=
  | PostgresHandler_ | MySQLHandler_ | SQLiteHandler_ | MongoDBHandler_.

(** [handler_cls(config)] *)
Definition construct (cls : handler_class) (config : Config)
    : DatabaseHandler :=
  match cls with
  | PostgresHandler_ => Postgres (PostgresHandler.init config)
  | MySQLHandler_ => MySQL (MySQLHandler.init config)
  | SQLiteHandler_ => SQLite (SQLiteHandler.init config)
  | MongoDBHandler_ => MongoDB (MongoDBHandler.init config)
  end.

(** [type(handler)] *)
Definition class_of (h : DatabaseHandler) : handler_class :=
  match h with
  | Postgres _ => PostgresHandler_
  | MySQL _ => MySQLHandler_
  | SQLite _ => SQLiteHandler_
  | MongoDB _ => MongoDBHandler_
  end.

(** The class attribute [_handlers]; a [dict] keeps insertion order. *)
Definition _handlers : list (string * handler_class) :=
  [ ("postgres", PostgresHandler_);
    ("mysql", MySQLHandler_);
    ("sqlite", SQLiteHandler_);
    ("mongodb", MongoDBHandler_) ].

(** [d.get(key)] *)
Fixpoint dict_get {V} (d : list (string * V)) (key : string) : option V :=
  match d with
  | [] => None
  | (k, v) :: d' => if String.eqb k key then Some v else dict_get d' key
  end.

(** [list(d.keys())] *)
Definition keys {V} (d : list (string * V)) : list string := map fst d.

Definition get_handler (db_type : string) (config : Config)
    : exn + DatabaseHandler :=
  match dict_get _handlers db_type with
  | None =>
      inl (ValueError ("Unsupported database type: " ++ db_type
                       ++ ". Supported types: "
                       ++ Py.repr_list (keys _handlers)))
  | Some handler_cls => inr (construct handler_cls config)
  end.

End DatabaseFactory.

(** ** The restore orchestration *)

(** Method dispatch on a handler; the call is recorded. *)
Definition handler_validate_tools (h : DatabaseHandler) : M bool :=
  tell (Invoke Validate_tools []) ;;;
  match h with
  | Postgres p => PostgresHandler.validate_tools p
  | MySQL m => MySQLHandler.validate_tools m
  | SQLite s => SQLiteHandler.validate_tools s
  | MongoDB m => MongoDBHandler.validate_tools m
  end.

Definition handler_restore (h : DatabaseHandler) (db_name : string)
    (input_file : Path.t) : M unit :=
  tell (Invoke Restore [db_name; Path.str input_file]) ;;;
  match h with
  | Postgres p => PostgresHandler.restore p db_name input_file
  | MySQL m => MySQLHandler.restore m db_name input_file
  | SQLite s => SQLiteHandler.restore s db_name input_file
  | MongoDB m => MongoDBHandler.restore m db_name input_file
  end.

(** [typer.confirm(...)]: the prompt names the database to overwrite and
    the file it is overwritten from. *)
Definition typer_confirm (db_name : string) (input_file : Path.t) : M bool :=
  fun w =>
    ([Confirm db_name (Path.str input_file)],
     inr (confirm_answer w db_name (Path.str input_file))).

(** Modelled from the spec: [perform_restore] ([clidup/core/restore.py] is
    not among the sources).  Section 4.6, steps (2), (4) and (5): validate
    the tools; unless confirmation is explicitly skipped, prompt for
    confirmation and abort on decline; invoke the handler's restore. *)
Definition perform_restore (db_handler : DatabaseHandler) (db_name : string)
    (backup_file : Path.t) (skip_confirmation : bool) : M unit :=
  handler_validate_tools db_handler ;;;
  confirmed <- (if skip_confirmation then ret true
                else typer_confirm db_name backup_file) ;;
  if confirmed then handler_restore db_handler db_name backup_file
  else raise Abort.

(** Modelled from the spec: [setup_logger] ([clidup/logging/logger.py] is
    not among the sources).  Section 6: it accepts a file path. *)
Definition setup_logger (log_file : Path.t) : M unit :=
  fun w =>
    ([], match logger_setup w (Path.str log_file) with
         | Some e => inl e
         | None => inr tt
         end).

(** ** [clidup/cli/main.py]: the [restore] command *)

Inductive DatabaseType := postgres.

Definition guidance : string :=
  "Error: Could not detect database name from filename. "
  ++ "Please specify --db-name explicitly." ++ nl
  ++ "Expected format: postgres_<db_name>_full_<YYYY-MM-DD>_<HH-MM-SS>.sql".

(** The [except] clauses of the command, in order. *)
Definition restore_except (e : exn) : option (M unit) :=
  Some (w <- ask ;;
        match e with
        | FileNotFoundError _ =>
            typer_echo ("Error: File not found: " ++ str_exn w e) true
        | ValueError _ =>
            typer_echo ("Error: Configuration error: " ++ str_exn w e) true
        | RuntimeError _ | Exit _ | Abort =>
            typer_echo ("Error: Restore failed: " ++ str_exn w e) true
        | _ =>
            typer_echo ("Error: Unexpected error: " ++ str_exn w e) true
        end ;;;
        raise (Exit 1)).

Section RestoreCommand.

(** [perform_restore] is imported from [clidup/core/restore.py]. *)
Variable perform_restore_ :
  DatabaseHandler -> string -> Path.t -> bool -> M unit.

(** Load configuration, set up the logger, build the handler. *)
Definition restore_setup (db : DatabaseType) (config_file : option string)
    : M (Path.t * DatabaseHandler) :=
  w <- ask ;;
  config <- (fun _ => ([], load_config w config_file)) ;;
  let log_file := Path.div (get_backup_directory config) "clidup.log" in
  setup_logger log_file ;;;
  db_handler <-
    match db with
    | postgres =>
        db_config <- (fun _ => ([], get_postgres_config config)) ;;
        ret (Postgres (PostgresHandler.init db_config))
    end ;;
  ret (log_file, db_handler).

(** Determine database name *)
Definition restore_db_name (file : string) (db_name : option string)
    : M string :=
  match db_name with
  | None =>
      (* Try to extract from filename using regex *)
      let backup_path := Path.of_str file in
      let db_name := extract_db_name_from_filename (Path.name backup_path) in
      if Py.truthy_opt db_name then
        typer_echo ("Info: Detected database name from filename: "
                    ++ default "" db_name) false ;;;
        ret (default "" db_name)
      else
        typer_echo guidance true ;;;
        raise (Exit 1)
  | Some db_name => ret db_name
  end.

Definition restore (db : DatabaseType) (file : string)
    (db_name : option string) (config_file : option string) (yes : bool)
    : M unit :=
  try_except
    (setup <- restore_setup db config_file ;;
     let '(log_file, db_handler) := setup in
     db_name <- restore_db_name file db_name ;;
     (* Perform restore *)
     let backup_file := Path.of_str file in
     perform_restore_ db_handler db_name backup_file yes ;;;
     typer_echo ("Logs: " ++ Path.str log_file) false)
    restore_except.

End RestoreCommand.

(** ** [clidup/cli/main.py]: the [backup] command *)

(** [db.value] *)
Definition DatabaseType_value (db : DatabaseType) : string :=
  match db with postgres => "postgres" end.

(** The [except] clauses of the command, in order. *)
Definition backup_except (e : exn) : option (M unit) :=
  Some (w <- ask ;;
        match e with
        | FileNotFoundError _ =>
            typer_echo ("Error: File not found: " ++ str_exn w e) true
        | ValueError _ =>
            typer_echo ("Error: Configuration error: " ++ str_exn w e) true
        | RuntimeError _ | Exit _ | Abort =>
            typer_echo ("Error: Backup failed: " ++ str_exn w e) true
        | _ =>
            typer_echo ("Error: Unexpected error: " ++ str_exn w e) true
        end ;;;
        raise (Exit 1)).

Section BackupCommand.

(** [perform_backup] is imported from [clidup/core/backup.py]; it returns
    the path of the backup file. *)
Variable perform_backup_ :
  DatabaseHandler -> string -> string -> Path.t -> bool -> M Path.t.

Definition backup (db : DatabaseType) (db_name : string) (compress : bool)
    (config_file : option string) : M unit :=
  try_except
    (w <- ask ;;
     (* Load configuration *)
     config <- (fun _ => ([], load_config w config_file)) ;;
     (* Setup logger *)
     let log_file := Path.div (get_backup_directory config) "clidup.log" in
     setup_logger log_file ;;;
     (* Get database configuration *)
     db_handler <-
       match db with
       | postgres =>
           db_config <- (fun _ => ([], get_postgres_config config)) ;;
           ret (Postgres (PostgresHandler.init db_config))
       end ;;
     (* Get backup directory *)
     let backup_dir := get_backup_directory config in
     (* Perform backup *)
     backup_file <- perform_backup_ db_handler (DatabaseType_value db)
                      db_name backup_dir compress ;;
     typer_echo (nl ++ "Backup completed successfully!") false ;;;
     typer_echo ("Backup file: " ++ Path.str backup_file) false ;;;
     typer_echo ("Logs: " ++ Path.str log_file) false)
    backup_except.

End BackupCommand.

(** * Vocabulary of the properties *)

(** The MySQL handler [self] with the password replaced by [p]. *)
Definition mysql_with_password (p : string) (self : MySQLHandler.t)
    : MySQLHandler.t :=
  {| MySQLHandler.host := MySQLHandler.host self;
     MySQLHandler.port := MySQLHandler.port self;
     MySQLHandler.username := MySQLHandler.username self;
     MySQLHandler.password := p;
     MySQLHandler.default_database := MySQLHandler.default_database self |}.

(** The environment a MySQL child process is given. *)
Definition mysql_env (p : string) (w : World) : gmap string string :=
  if Py.truthy p then <["MYSQL_PWD" := p]> (os_environ w) else os_environ w.

(** The call a MySQL operation makes with password [p]. *)
Definition mysql_call (p : string) (w : World) (cmd : list string)
    (stdin : option string) (timeout : Z) : proc_call :=
  {| call_argv := cmd; call_env := mysql_env p w;
     call_stdin := stdin; call_timeout := timeout |}.

(** The child is still running when the timeout of the call expires. *)
Definition overruns (w : World) (c : proc_call) : Prop :=
  match child_of w c with
  | Hangs => True
  | Runs seconds _ _ _ => (call_timeout c < seconds)%Z
  | CannotStart _ => False
  end.

(** The MongoDB handler [self] with the password replaced by [p]. *)
Definition mongo_with_password (p : string) (self : MongoDBHandler.t)
    : MongoDBHandler.t :=
  {| MongoDBHandler.host := MongoDBHandler.host self;
     MongoDBHandler.port := MongoDBHandler.port self;
     MongoDBHandler.username := MongoDBHandler.username self;
     MongoDBHandler.password := p;
     MongoDBHandler.database := MongoDBHandler.database self;
     MongoDBHandler.auth_db := MongoDBHandler.auth_db self |}.

(** The call a MongoDB operation makes: the environment is inherited. *)
Definition mongo_call (w : World) (cmd : list string) (timeout : Z)
    : proc_call :=
  {| call_argv := cmd; call_env := os_environ w;
     call_stdin := None; call_timeout := timeout |}.

(** A configuration mapping with a user and a password. *)
Definition sample_config : Config :=
  {| cfg_host := Some "db.example.org"; cfg_port := None;
     cfg_username := Some "admin"; cfg_password := Some "s3cret";
     cfg_database := Some "test_db"; cfg_auth_database := None;
     cfg_db_path := None |}.

(** A world in which every tool is installed, every child process hangs
    and the user declines every prompt. *)
Definition hanging_world : World :=
  {| os_environ := {[ "PATH" := "/usr/bin" ]};
     which := fun tool => Some ("/usr/bin/" ++ tool);
     child_of := fun _ => Hangs;
     open_read := fun _ => None;
     path_exists := fun _ => true;
     access_read := fun _ => true;
     copy2 := fun _ _ => None;
     confirm_answer := fun _ _ => false;
     signal_name := fun _ => None;
     load_config := fun _ =>
       inr {| get_backup_directory := Path.of_str "backups";
              get_postgres_config := inr sample_config |};
     logger_setup := fun _ => None;
     postgres_method := fun _ _ => None |}.

(** The argument list [_build_base_cmd] produces when a user name is set. *)
Definition mongo_argv (self : MongoDBHandler.t) (p tool : string)
    (rest : list string) : list string :=
  ([ tool; "--host"; MongoDBHandler.host self;
     "--port"; Py.str_int (MongoDBHandler.port self);
     "--username"; MongoDBHandler.username self;
     "--password"; p;
     "--authenticationDatabase"; MongoDBHandler.auth_db self ] ++ rest)%list.

(** No character of [s] is [a]. *)
Fixpoint no_char (a : ascii) (s : string) : bool :=
  match s with
  | "" => true
  | String b s' => negb (Ascii.eqb a b) && no_char a s'
  end.

(** A text of the form [YYYY-MM-DD_HH-MM-SS], all digits decimal. *)
Definition is_timestamp (ts : string) : Prop :=
  exists y1 y2 y3 y4 m1 m2 d1 d2 h1 h2 n1 n2 s1 s2,
    ts = string_of_list_ascii
           [ y1; y2; y3; y4; "-"; m1; m2; "-"; d1; d2; "_";
             h1; h2; "-"; n1; n2; "-"; s1; s2 ]%char
    /\ forallb Re.is_digit
         [ y1; y2; y3; y4; m1; m2; d1; d2; h1; h2; n1; n2; s1; s2 ] = true.

(** [_full_\d{4}-\d{2}-\d{2}_\d{2}-\d{2}(?:-\d{2})?$], the part of the
    pattern after the group. *)
Definition suffix_re : Re.regex :=
  Re.seq [ Re.Lit "_full_";
           Re.Rep Re.Digit 4; Re.Lit "-"; Re.Rep Re.Digit 2; Re.Lit "-";
           Re.Rep Re.Digit 2; Re.Lit "_";
           Re.Rep Re.Digit 2; Re.Lit "-"; Re.Rep Re.Digit 2;
           Re.Opt (Re.Seq (Re.Lit "-") (Re.Rep Re.Digit 2));
           Re.Eol ].

(** The longest input on which a regex can succeed when its continuation
    accepts inputs of length at most [after]; [None]: no bound. *)
Fixpoint max_input (r : Re.regex) (after : option nat) : option nat :=
  match r with
  | Re.Bol => after
  | Re.Eol => Some 1
  | Re.Lit p => (fun n => String.length p + n) <$> after
  | Re.Rep _ n => (fun m => n + m) <$> after
  | Re.LazyPlus _ => None
  | Re.Opt r1 =>
      match max_input r1 after, after with
      | Some a, Some b => Some (Nat.max a b)
      | _, _ => None
      end
  | Re.Group r1 => max_input r1 after
  | Re.Seq r1 r2 => max_input r1 (max_input r2 after)
  end.

(** [n] respects the bound. *)
Definition within (bound : option nat) (n : nat) : Prop :=
  match bound with Some m => n <= m | None => True end.

(** The last two, and the last four, decimal digits of [n]. *)
Definition digits2 (n : Z) : string :=
  string_of_list_ascii
    [ digit_char (n / 10 mod 10); digit_char (n mod 10) ].

Definition digits4 (n : Z) : string :=
  string_of_list_ascii
    [ digit_char (n / 1000 mod 10); digit_char (n / 100 mod 10);
      digit_char (n / 10 mod 10); digit_char (n mod 10) ].

(** The file name as the specification writes it:
    [<db_type>_<db_name>_full_<YYYY-MM-DD>_<HH-MM-SS>.<ext>]. *)
Definition artifact_name (db_type db_name : string) (t : datetime)
    (ext : string) : string :=
  db_type ++ "_" ++ db_name ++ "_full_"
  ++ digits4 (year t) ++ "-" ++ digits2 (month t) ++ "-" ++ digits2 (day t)
  ++ "_"
  ++ digits2 (hour t) ++ "-" ++ digits2 (minute t) ++ "-"
  ++ digits2 (second t)
  ++ "." ++ ext.

(** [handler.get_default_backup_name(database)] at time [now]. *)
Definition handler_get_default_backup_name (h : DatabaseHandler)
    (database : string) (now : datetime) : string :=
  match h with
  | Postgres p => PostgresHandler.get_default_backup_name p database now
  | MySQL m => MySQLHandler.get_default_backup_name m database now
  | SQLite s => SQLiteHandler.get_default_backup_name s database now
  | MongoDB m => MongoDBHandler.get_default_backup_name m database now
  end.

(** The tag under which the factory knows the class of a handler. *)
Definition tag_of (h : DatabaseHandler) : string :=
  match h with
  | Postgres _ => "postgres"
  | MySQL _ => "mysql"
  | SQLite _ => "sqlite"
  | MongoDB _ => "mongodb"
  end.

(** The extension the specification gives to the backups of a backend. *)
Definition ext_of (h : DatabaseHandler) : string :=
  match h with
  | Postgres _ | MySQL _ => "sql"
  | SQLite _ => "db"
  | MongoDB _ => "archive"
  end.

(** 7 January 2026, 23:45:12 and a fraction. *)
Definition sample_time : datetime :=
  {| year := 2026; month := 1; day := 7;
     hour := 23; minute := 45; second := 12; microsecond := 345678 |}.

(** The continuation that accepts whatever input is left. *)
Definition accept : Re.cont := fun _ _ g => Some g.

(** [_full_\d{4}-\d{2}-\d{2}_\d{2}-\d{2}], the timestamp suffix, found
    somewhere in [s]. *)
Fixpoint has_timestamp_suffix (s : string) : bool :=
  bool_decide (is_Some
    (Re.exec
       (Re.seq [ Re.Lit "_full_";
                 Re.Rep Re.Digit 4; Re.Lit "-"; Re.Rep Re.Digit 2;
                 Re.Lit "-"; Re.Rep Re.Digit 2; Re.Lit "_";
                 Re.Rep Re.Digit 2; Re.Lit "-"; Re.Rep Re.Digit 2 ])
       0 s None accept))
  || match s with "" => false | String _ s' => has_timestamp_suffix s' end.

(** The regex has no capturing group. *)
Fixpoint group_free (r : Re.regex) : bool :=
  match r with
  | Re.Group _ => false
  | Re.Opt r1 => group_free r1
  | Re.Seq r1 r2 => group_free r1 && group_free r2
  | _ => true
  end.

(** The handler's restore method was called during the run. *)
Definition restore_invoked (tr : list event) : bool :=
  existsb (fun e => match e with Invoke Restore _ => true | _ => false end)
    tr.

(** What [extract_db_name_from_filename] matches the pattern against:
    the file name with the common extensions removed. *)
Definition strip_extensions (filename : string) : string :=
  Py.replace (Py.replace (Py.replace filename ".tar.gz" "") ".tar" "")
             ".sql" "".

(** The shortest input on which a regex can succeed when its continuation
    needs an input of length at least [after]. *)
Fixpoint min_input (r : Re.regex) (after : nat) : nat :=
  match r with
  | Re.Bol | Re.Eol => after
  | Re.Lit p => String.length p + after
  | Re.Rep _ n => n + after
  | Re.LazyPlus _ => 1 + after
  | Re.Opt r1 => Nat.min (min_input r1 after) after
  | Re.Group r1 => min_input r1 after
  | Re.Seq r1 r2 => min_input r1 (min_input r2 after)
  end.

(** A text of the form [YYYY-MM-DD_HH-MM], without seconds. *)
Definition is_short_timestamp (ts : string) : Prop :=
  exists y1 y2 y3 y4 m1 m2 d1 d2 h1 h2 n1 n2,
    ts = string_of_list_ascii
           [ y1; y2; y3; y4; "-"; m1; m2; "-"; d1; d2; "_";
             h1; h2; "-"; n1; n2 ]%char
    /\ forallb Re.is_digit
         [ y1; y2; y3; y4; m1; m2; d1; d2; h1; h2; n1; n2 ] = true.

(** A world in which every tool is installed and every child process
    exits at once with status 0 and no output. *)
Definition quiet_world : World :=
  {| os_environ := {[ "PATH" := "/usr/bin" ]};
     which := fun tool => Some ("/usr/bin/" ++ tool);
     child_of := fun _ => Runs 0 0 "" "";
     open_read := fun _ => None;
     path_exists := fun _ => true;
     access_read := fun _ => true;
     copy2 := fun _ _ => None;
     confirm_answer := fun _ _ => true;
     signal_name := fun _ => None;
     load_config := fun _ =>
       inr {| get_backup_directory := Path.of_str "backups";
              get_postgres_config := inr sample_config |};
     logger_setup := fun _ => None;
     postgres_method := fun _ _ => None |}.

(** The child exits with status 0 before the timeout of the call. *)
Definition succeeds (w : World) (c : proc_call) : Prop :=
  match child_of w c with
  | Runs seconds rc _ _ => (seconds <= call_timeout c)%Z /\ rc = 0%Z
  | _ => False
  end.

(** The files copied during a run, as (source, destination). *)
Definition copies (tr : list event) : list (string * string) :=
  omap (fun e => match e with Copy a b => Some (a, b) | _ => None end) tr.

(** The messages logged at level ERROR during a run. *)
Definition errors_logged (tr : list event) : list string :=
  omap (fun e => match e with Log ERROR msg => Some msg | _ => None end) tr.

(** The MongoDB handler [self] without a user name. *)
Definition mongo_anonymous (self : MongoDBHandler.t) : MongoDBHandler.t :=
  {| MongoDBHandler.host := MongoDBHandler.host self;
     MongoDBHandler.port := MongoDBHandler.port self;
     MongoDBHandler.username := "";
     MongoDBHandler.password := MongoDBHandler.password self;
     MongoDBHandler.database := MongoDBHandler.database self;
     MongoDBHandler.auth_db := MongoDBHandler.auth_db self |}.

(** * Properties *)

(** ** Running computations *)

Ltac run_step :=
  match goal with
  | |- context [match child_of ?w ?c with _ => _ end] =>
      destruct (child_of w c) eqn:?
  | |- context [if (?a <? ?b)%Z then _ else _] =>
      destruct (a <? b)%Z eqn:?
  | |- context [if (?a =? ?b)%Z then _ else _] =>
      destruct (a =? b)%Z eqn:?
  | |- context [match open_read ?w ?p with _ => _ end] =>
      destruct (open_read w p) eqn:?
  | |- context [match which ?w ?p with _ => _ end] =>
      destruct (which w p) eqn:?
  | |- context [if Py.truthy ?s then _ else _] =>
      destruct (Py.truthy s) eqn:?
  | |- context [match ?e with ValueError _ => _ | _ => _ end] =>
      destruct e eqn:?
  end.

Ltac run_red :=
  cbv beta iota zeta delta
    [trace outcome fst snd bind ret raise tell ask try_except subprocess_run
     with_open shutil_copy2 typer_echo typer_confirm setup_logger
     logger_debug logger_info logger_warning logger_error shutil_which
     spawned omap list_omap app negb andb orb Py.truthy_opt
     default fmap option_fmap option_map id].

Ltac run := run_red; repeat (run_step; run_red).

Ltac close :=
  intros; simplify_eq;
  repeat match goal with
         | H : (_ <? _)%Z = true |- _ => apply Z.ltb_lt in H
         | H : (_ <? _)%Z = false |- _ => apply Z.ltb_ge in H
         end;
  first [ reflexivity | tauto | lia | congruence ].

Ltac mysql_start p :=
  unfold MySQLHandler.validate_tools, MySQLHandler.validate_connection,
    MySQLHandler._database_exists, MySQLHandler.backup,
    MySQLHandler.restore, MySQLHandler._get_env, mysql_call, mysql_env,
    overruns;
  cbn [MySQLHandler.password mysql_with_password call_timeout];
  destruct (Py.truthy p) eqn:?.

Lemma mysql_validate_connection_spawned self p w :
  spawned (trace (MySQLHandler.validate_connection
                    (mysql_with_password p self)) w) =
  [ mysql_call p w (MySQLHandler.validate_connection_cmd self) None 10 ].
Proof. mysql_start p; run; reflexivity. Qed.

Lemma mysql_database_exists_spawned self p database w :
  spawned (trace (MySQLHandler._database_exists
                    (mysql_with_password p self) database) w) =
  [ mysql_call p w (MySQLHandler._database_exists_cmd self database)
      None 10 ].
Proof. mysql_start p; run; reflexivity. Qed.

Lemma mysql_backup_spawned self p database output_file w :
  spawned (trace (MySQLHandler.backup (mysql_with_password p self)
                    database output_file) w) =
  [ mysql_call p w (MySQLHandler.backup_cmd self database output_file)
      None 3600 ].
Proof. mysql_start p; run; reflexivity. Qed.

Lemma mysql_restore_spawned self p database input_file w :
  spawned (trace (MySQLHandler.restore (mysql_with_password p self)
                    database input_file) w) =
  match open_read w (Path.str input_file) with
  | None =>
      [ mysql_call p w (MySQLHandler.restore_cmd self database)
          (Some (Path.str input_file)) 3600 ]
  | Some _ => []
  end.
Proof. mysql_start p; run; reflexivity. Qed.

Lemma mysql_with_password_id self :
  mysql_with_password (MySQLHandler.password self) self = self.
Proof. destruct self; reflexivity. Qed.

Lemma mysql_validate_tools_timeouts self w :
  Forall (fun c => call_timeout c = 10%Z)
    (spawned (trace (MySQLHandler.validate_tools self) w)).
Proof.
  mysql_start (MySQLHandler.password self); run;
    repeat constructor.
Qed.

Lemma mysql_validate_connection_timeout self w :
  overruns w (mysql_call (MySQLHandler.password self) w
                (MySQLHandler.validate_connection_cmd self) None 10) ->
  outcome (MySQLHandler.validate_connection self) w =
  inl (RuntimeError
         ("Connection timeout to MySQL at " ++ MySQLHandler.host self ++ ":"
          ++ Py.str_int (MySQLHandler.port self) ++ ". "
          ++ "Check that the server is running and network is accessible.")).
Proof.
  mysql_start (MySQLHandler.password self); run; close.
Qed.

Lemma mysql_backup_timeout self database output_file w :
  overruns w (mysql_call (MySQLHandler.password self) w
                (MySQLHandler.backup_cmd self database output_file)
                None 3600) ->
  outcome (MySQLHandler.backup self database output_file) w =
  inl (RuntimeError
         ("Unexpected error during backup: "
          ++ str_exn w (TimeoutExpired
                          (MySQLHandler.backup_cmd self database output_file)
                          3600))).
Proof.
  mysql_start (MySQLHandler.password self); run; close.
Qed.

Lemma mysql_restore_timeout self database input_file w :
  open_read w (Path.str input_file) = None ->
  overruns w (mysql_call (MySQLHandler.password self) w
                (MySQLHandler.restore_cmd self database)
                (Some (Path.str input_file)) 3600) ->
  outcome (MySQLHandler.restore self database input_file) w =
  inl (RuntimeError
         ("Unexpected error during restore: "
          ++ str_exn w (TimeoutExpired
                          (MySQLHandler.restore_cmd self database) 3600))).
Proof.
  intros Hopen. mysql_start (MySQLHandler.password self); run; close.
Qed.

(** The existence check swallows a failing probe. *)
Lemma mysql_database_exists_assumes self database w :
  match child_of w (mysql_call (MySQLHandler.password self) w
                      (MySQLHandler._database_exists_cmd self database)
                      None 10) with
  | Hangs => outcome (MySQLHandler._database_exists self database) w = inr true
  | Runs seconds rc out _ =>
      outcome (MySQLHandler._database_exists self database) w =
      if ((10 <? seconds) || negb (rc =? 0))%Z then inr true
      else inr (1 <? length (Py.split (Py.strip out) Re.newline))%nat
  | CannotStart e =>
      outcome (MySQLHandler._database_exists self database) w =
      match e with
      | CalledProcessError _ _ _ _ | TimeoutExpired _ _ => inr true
      | _ => inl e
      end
  end.
Proof.
  mysql_start (MySQLHandler.password self); run; reflexivity.
Qed.

Lemma mysql_database_exists_timeout self database w :
  overruns w (mysql_call (MySQLHandler.password self) w
                (MySQLHandler._database_exists_cmd self database) None 10) ->
  outcome (MySQLHandler._database_exists self database) w = inr true.
Proof. mysql_start (MySQLHandler.password self); run; close. Qed.

(** *** MongoDB *)

Ltac mongo_start :=
  unfold MongoDBHandler.validate_tools, MongoDBHandler.validate_connection,
    MongoDBHandler.backup, MongoDBHandler.restore, mongo_call, overruns;
  cbn [call_timeout].

Lemma mongo_validate_connection_spawned self w :
  spawned (trace (MongoDBHandler.validate_connection self) w) =
  if Py.truthy_opt (which w "mongosh")
  then [ mongo_call w (MongoDBHandler.validate_connection_cmd self) 10 ]
  else [].
Proof. mongo_start; run; reflexivity. Qed.

Lemma mongo_backup_spawned self database output_file w :
  spawned (trace (MongoDBHandler.backup self database output_file) w) =
  [ mongo_call w (MongoDBHandler.backup_cmd self database output_file) 3600 ].
Proof. mongo_start; run; reflexivity. Qed.

Lemma mongo_restore_spawned self database input_file w :
  spawned (trace (MongoDBHandler.restore self database input_file) w) =
  [ mongo_call w (MongoDBHandler.restore_cmd self input_file) 3600 ].
Proof. mongo_start; run; reflexivity. Qed.

Lemma mongo_validate_tools_timeouts self w :
  Forall (fun c => call_timeout c = 10%Z)
    (spawned (trace (MongoDBHandler.validate_tools self) w)).
Proof. mongo_start; run; repeat constructor. Qed.

Lemma mongo_validate_connection_timeout self w :
  Py.truthy_opt (which w "mongosh") = true ->
  overruns w (mongo_call w (MongoDBHandler.validate_connection_cmd self) 10) ->
  outcome (MongoDBHandler.validate_connection self) w =
  inl (RuntimeError
         ("Connection timeout to MongoDB at " ++ MongoDBHandler.host self
          ++ ":" ++ Py.str_int (MongoDBHandler.port self))).
Proof.
  mongo_start; run; cbn; close.
Qed.

Lemma mongo_backup_timeout self database output_file w :
  overruns w (mongo_call w (MongoDBHandler.backup_cmd self database
                              output_file) 3600) ->
  outcome (MongoDBHandler.backup self database output_file) w =
  inl (TimeoutExpired (MongoDBHandler.backup_cmd self database output_file)
         3600).
Proof. mongo_start; run; close. Qed.

Lemma mongo_restore_timeout self database input_file w :
  overruns w (mongo_call w (MongoDBHandler.restore_cmd self input_file)
                3600) ->
  outcome (MongoDBHandler.restore self database input_file) w =
  inl (TimeoutExpired (MongoDBHandler.restore_cmd self input_file) 3600).
Proof. mongo_start; run; close. Qed.

(** ** Strings *)

Lemma app_assoc_s (a b c : string) : (a ++ b) ++ c = a ++ (b ++ c).
Proof. induction a as [|x a IH]; cbn; [reflexivity | now rewrite IH]. Qed.

Lemma app_nil_r_s (a : string) : a ++ "" = a.
Proof. induction a as [|x a IH]; cbn; [reflexivity | now rewrite IH]. Qed.

Lemma length_app_s (a b : string) :
  String.length (a ++ b) = String.length a + String.length b.
Proof. induction a as [|x a IH]; cbn; [reflexivity | now rewrite IH]. Qed.

Lemma substring_app_l (a b : string) :
  substring 0 (String.length a) (a ++ b) = a.
Proof. induction a as [|x a IH]; cbn; [now destruct b | now rewrite IH]. Qed.

Lemma prefix_nil (s : string) : String.prefix "" s = true.
Proof. destruct s; reflexivity. Qed.

Lemma prefix_cons a p b s :
  String.prefix (String a p) (String b s) =
  Ascii.eqb a b && String.prefix p s.
Proof.
  cbn. destruct (ascii_dec a b) as [->|Hne].
  - now rewrite Ascii.eqb_refl.
  - apply Ascii.eqb_neq in Hne. now rewrite Hne.
Qed.

(** A match of [old] cannot run past a character that [old] lacks. *)
Lemma prefix_app_sep old x d y :
  no_char d old = true ->
  String.prefix old (x ++ String d y) = String.prefix old x.
Proof.
  revert x. induction old as [|a old IH]; intros x Hd.
  - now rewrite !prefix_nil.
  - cbn [no_char] in Hd. apply andb_true_iff in Hd as [Ha Hd].
    destruct x as [|c x].
    + cbn [String.append]. rewrite prefix_cons.
      rewrite Ascii.eqb_sym. apply negb_true_iff in Ha. now rewrite Ha.
    + cbn [String.append]. rewrite !prefix_cons. now rewrite IH.
Qed.

Lemma contains_nil_r old : Py.contains old "" = String.prefix old "".
Proof. cbn. now rewrite orb_false_r. Qed.

Lemma contains_app_sep old x d y :
  no_char d old = true ->
  Py.contains old (x ++ String d y) =
  Py.contains old x || Py.contains old (String d y).
Proof.
  intros Hd. induction x as [|c x IH].
  - cbn [String.append]. rewrite contains_nil_r.
    destruct old as [|a old]; [reflexivity|]. reflexivity.
  - cbn [String.append Py.contains].
    change (String c (x ++ String d y)) with (String c x ++ String d y).
    rewrite prefix_app_sep by exact Hd. cbn [String.append].
    rewrite IH. apply orb_assoc.
Qed.

(** A match of [old] starts at its first character. *)
Lemma contains_app_no_first a old x y :
  no_char a x = true ->
  Py.contains (String a old) (x ++ y) = Py.contains (String a old) y.
Proof.
  induction x as [|c x IH]; intros Hx; [reflexivity|].
  cbn [no_char] in Hx. apply andb_true_iff in Hx as [Hc Hx].
  cbn [String.append Py.contains]. rewrite prefix_cons.
  apply negb_true_iff in Hc. rewrite Hc. cbn. now apply IH.
Qed.

Lemma contains_longer p q s :
  Py.contains p s = false -> Py.contains (p ++ q) s = false.
Proof.
  assert (Hp : forall t, String.prefix p t = false ->
                         String.prefix (p ++ q) t = false).
  { induction p as [|a p IH]; intros t Ht.
    - now rewrite prefix_nil in Ht.
    - destruct t as [|b t]; [reflexivity|].
      cbn [String.append]. rewrite prefix_cons in *.
      destruct (Ascii.eqb a b); [cbn in *; now apply IH | reflexivity]. }
  induction s as [|c s IH]; cbn [Py.contains]; intros H;
    apply orb_false_iff in H as [H1 H2].
  - now rewrite Hp.
  - rewrite Hp by exact H1. now rewrite IH.
Qed.

(** [replace] leaves a string without occurrences alone. *)
Lemma replace_from_absent old new s :
  Py.contains old s = false -> Py.replace_from old new 0 s = s.
Proof.
  induction s as [|c s IH]; [reflexivity|].
  cbn [Py.contains Py.replace_from]. intros H.
  apply orb_false_iff in H as [H1 H2]. rewrite H1. now rewrite IH.
Qed.

Lemma replace_from_app_sep old new x d y :
  no_char d old = true ->
  Py.contains old x = false ->
  Py.replace_from old new 0 (x ++ String d y) =
  x ++ Py.replace_from old new 0 (String d y).
Proof.
  intros Hd. induction x as [|c x IH]; [reflexivity|].
  cbn [Py.contains]. intros H. apply orb_false_iff in H as [H1 H2].
  cbn [String.append Py.replace_from].
  change (String c (x ++ String d y)) with (String c x ++ String d y).
  rewrite prefix_app_sep by exact Hd. rewrite H1. now rewrite IH.
Qed.

Lemma replace_from_app_no_first a old new x y :
  no_char a x = true ->
  Py.replace_from (String a old) new 0 (x ++ y) =
  x ++ Py.replace_from (String a old) new 0 y.
Proof.
  induction x as [|c x IH]; intros Hx; [reflexivity|].
  cbn [no_char] in Hx. apply andb_true_iff in Hx as [Hc Hx].
  cbn [String.append Py.replace_from]. rewrite prefix_cons.
  apply negb_true_iff in Hc. rewrite Hc. cbn [andb]. now rewrite IH.
Qed.

(** The first character survives when no occurrence can start there. *)
Lemma replace_first a old c s :
  Ascii.eqb a c = false ->
  Py.replace (String c s) (String a old) "" =
  String c (Py.replace s (String a old) "").
Proof.
  intros H. unfold Py.replace. cbn [Py.replace_from]. rewrite prefix_cons.
  now rewrite H.
Qed.

(** ** The matcher *)

Lemma strip_prefix_length p s s' :
  Re.strip_prefix p s = Some s' ->
  String.length s = String.length p + String.length s'.
Proof.
  revert s. induction p as [|a p IH]; intros s H; cbn in H.
  - now inversion H.
  - destruct s as [|b s]; [discriminate|].
    destruct (Ascii.eqb a b); [|discriminate].
    cbn. now rewrite (IH _ H).
Qed.

Lemma exec_rep_bound c n after : forall pos s g k,
  (forall pos' s' g', k pos' s' g' <> None -> within after (String.length s')) ->
  Re.exec_rep c n pos s g k <> None ->
  within ((fun m => n + m) <$> after) (String.length s).
Proof.
  induction n as [|n IH]; intros pos s g k Hk H; cbn in H.
  - apply Hk in H. destruct after; cbn in *; [lia | exact I].
  - destruct s as [|a s]; [congruence|].
    destruct (Re.cclass_match c a); [|congruence].
    apply IH in H; [|exact Hk].
    destruct after; cbn in *; [lia | exact I].
Qed.

Lemma exec_bound r : forall after pos s g k,
  (forall pos' s' g', k pos' s' g' <> None -> within after (String.length s')) ->
  Re.exec r pos s g k <> None ->
  within (max_input r after) (String.length s).
Proof.
  induction r as [| |p|c n|c|r1 IH1|r1 IH1|r1 IH1 r2 IH2];
    intros after pos s g k Hk H; cbn [Re.exec max_input] in *.
  - destruct (pos =? 0)%nat; [eauto | congruence].
  - destruct s as [|a [|b s]]; cbn; [lia | lia | congruence].
  - destruct (Re.strip_prefix p s) as [s'|] eqn:Hp; [|congruence].
    apply strip_prefix_length in Hp. apply Hk in H.
    destruct after; cbn in *; [lia | exact I].
  - eapply exec_rep_bound; eauto.
  - exact I.
  - destruct (Re.exec r1 pos s g k) eqn:H1.
    + assert (Hne : Re.exec r1 pos s g k <> None) by congruence.
      apply (IH1 after) in Hne; [|exact Hk].
      destruct (max_input r1 after), after; cbn in *; try exact I; lia.
    + apply Hk in H.
      destruct (max_input r1 after), after; cbn in *; try exact I; lia.
  - eapply IH1; [|exact H]. intros pos' s' g' Hk'. eapply Hk, Hk'.
  - eapply IH1; [|exact H]. intros pos' s' g' H2.
    eapply IH2; [|exact H2]. exact Hk.
Qed.

(** The lazy group stops at the first split the rest of the pattern
    accepts. *)
Lemma exec_lazy_plus_first c name : forall tail pos g k m,
  name <> "" ->
  forallb (Re.cclass_match c) (list_ascii_of_string name) = true ->
  (forall x y, x <> "" -> y <> "" -> name = x ++ y ->
               k (pos + String.length x)%nat (y ++ tail) g = None) ->
  k (pos + String.length name)%nat tail g = Some m ->
  Re.exec_lazy_plus c pos (name ++ tail) g k = Some m.
Proof.
  induction name as [|a name IH]; intros tail pos g k m Hne Hc Hsplit Hk;
    [congruence|].
  cbn in Hc. apply andb_true_iff in Hc as [Ha Hc].
  cbn [String.append Re.exec_lazy_plus]. rewrite Ha.
  destruct name as [|b name].
  - cbn in Hk. cbn [String.append].
    replace (S pos) with (pos + 1)%nat by lia. now rewrite Hk.
  - pose proof (Hsplit (String a "") (String b name)) as Hs.
    cbn [String.length] in Hs. rewrite Nat.add_1_r in Hs.
    rewrite Hs by (congruence || reflexivity).
    rewrite <- (Nat.add_1_r pos).
    apply IH; try congruence.
    + intros x y Hx Hy Hxy.
      replace (pos + 1 + String.length x)%nat
        with (pos + String.length (String a x))%nat by (cbn; lia).
      apply Hsplit; try congruence. cbn. now rewrite Hxy.
    + replace (pos + 1 + String.length (String b name))%nat
        with (pos + String.length (String a (String b name)))%nat
        by (cbn; lia).
      exact Hk.
Qed.

Lemma is_timestamp_length ts : is_timestamp ts -> String.length ts = 19.
Proof.
  intros (y1&y2&y3&y4&m1&m2&d1&d2&h1&h2&n1&n2&s1&s2&->&_). reflexivity.
Qed.

(** After a longer name the rest of the pattern cannot match. *)
Lemma suffix_fails y ts pos g k :
  y <> "" -> is_timestamp ts ->
  Re.exec suffix_re pos (y ++ "_full_" ++ ts) g k = None.
Proof.
  intros Hy Hts. destruct y as [|c1 [|c2 y]]; [congruence| |].
  - unfold suffix_re.
    cbn [Re.seq Re.exec String.append Re.strip_prefix].
    destruct (Ascii.eqb "_" c1); reflexivity.
  - destruct (Re.exec suffix_re pos _ g k) eqn:E; [exfalso|reflexivity].
    assert (Hne : Re.exec suffix_re pos
                    (String c1 (String c2 y) ++ "_full_" ++ ts) g k <> None)
      by congruence.
    apply (exec_bound _ None) in Hne; [|intros; exact I].
    cbn in Hne. rewrite length_app_s in Hne.
    cbn in Hne. rewrite (is_timestamp_length _ Hts) in Hne. lia.
Qed.

Lemma suffix_matches ts pos g :
  is_timestamp ts ->
  Re.exec suffix_re pos ("_full_" ++ ts) g (fun _ _ g' => Some g') = Some g.
Proof.
  intros (y1&y2&y3&y4&m1&m2&d1&d2&h1&h2&n1&n2&s1&s2&->&Hd).
  cbn in Hd.
  repeat (apply andb_true_iff in Hd as [?H Hd]).
  cbn. repeat match goal with H : Re.is_digit _ = true |- _ =>
                rewrite H; clear H end.
  reflexivity.
Qed.

Lemma no_newline_dot name :
  no_char Re.newline name = true ->
  forallb (Re.cclass_match Re.Dot) (list_ascii_of_string name) = true.
Proof.
  induction name as [|a name IH]; [reflexivity|].
  cbn [no_char list_ascii_of_string forallb Re.cclass_match].
  rewrite (Ascii.eqb_sym a). intros H.
  apply andb_true_iff in H as [-> H]. now apply IH.
Qed.

(** The pattern, applied to the stripped name of a Postgres backup. *)
Lemma match_postgres name ts :
  is_timestamp ts -> name <> "" -> no_char Re.newline name = true ->
  Re.match_ pattern ("postgres_" ++ name ++ "_full_" ++ ts)
  = Some (Some name).
Proof.
  intros Hts Hne Hnl. unfold Re.match_.
  change pattern with
    (Re.Seq Re.Bol (Re.Seq (Re.Lit "postgres_")
       (Re.Seq (Re.Group (Re.LazyPlus Re.Dot)) suffix_re))).
  cbn -[suffix_re Re.exec_lazy_plus].
  apply exec_lazy_plus_first; auto using no_newline_dot.
  - intros x y Hx Hy _. exact (suffix_fails y ts _ _ _ Hy Hts).
  - replace (9 + String.length name - 9)%nat with (String.length name)
      by lia.
    pose proof (substring_app_l name ("_full_" ++ ts)) as Hsub.
    cbn [String.append] in Hsub. rewrite Hsub.
    exact (suffix_matches ts _ _ Hts).
Qed.

(** ** Decoding an encoded name *)

Lemma digit_not_dot a : Re.is_digit a = true -> Ascii.eqb "." a = false.
Proof.
  intros H. destruct (Ascii.eqb_spec "."%char a) as [<-|]; [|reflexivity].
  discriminate H.
Qed.

Lemma no_dot_timestamp ts :
  is_timestamp ts -> no_char "." ("_full_" ++ ts) = true.
Proof.
  intros (y1&y2&y3&y4&m1&m2&d1&d2&h1&h2&n1&n2&s1&s2&->&Hd).
  cbn in Hd. repeat (apply andb_true_iff in Hd as [?H Hd]).
  cbn [String.append string_of_list_ascii no_char].
  repeat match goal with H : Re.is_digit _ = true |- _ =>
           rewrite (digit_not_dot _ H); clear H end.
  reflexivity.
Qed.

Lemma contains_backup_name old name ts ext :
  is_timestamp ts -> no_char "_" (String "." old) = true ->
  Py.contains (String "." old)
    ("postgres_" ++ name ++ "_full_" ++ ts ++ ext) =
  Py.contains (String "." old) name || Py.contains (String "." old) ext.
Proof.
  intros Hts Hold.
  rewrite contains_app_no_first by reflexivity.
  change ("_full_" ++ ts ++ ext) with (String "_" ("full_" ++ ts ++ ext)).
  rewrite contains_app_sep by exact Hold. f_equal.
  change (String "_" ("full_" ++ ts ++ ext)) with ("_full_" ++ ts ++ ext).
  rewrite <- (app_assoc_s "_full_" ts ext).
  apply contains_app_no_first, no_dot_timestamp, Hts.
Qed.

Lemma replace_backup_name old name ts ext :
  is_timestamp ts -> no_char "_" (String "." old) = true ->
  Py.contains (String "." old) name = false ->
  Py.replace_from (String "." old) "" 0
    ("postgres_" ++ name ++ "_full_" ++ ts ++ ext) =
  "postgres_" ++ name ++ "_full_" ++ ts
  ++ Py.replace_from (String "." old) "" 0 ext.
Proof.
  intros Hts Hold Hname.
  rewrite replace_from_app_no_first by reflexivity. f_equal.
  change ("_full_" ++ ts ++ ext) with (String "_" ("full_" ++ ts ++ ext)).
  rewrite replace_from_app_sep by assumption. f_equal.
  change (String "_" ("full_" ++ ts ++ ext)) with ("_full_" ++ ts ++ ext).
  rewrite <- (app_assoc_s "_full_" ts ext).
  rewrite replace_from_app_no_first by (apply no_dot_timestamp, Hts).
  apply app_assoc_s.
Qed.

(** Decoding [postgres_<name>_full_<timestamp>.sql]. *)
Lemma decode_postgres name ts :
  is_timestamp ts -> name <> "" -> no_char Re.newline name = true ->
  Py.contains ".tar" name = false -> Py.contains ".sql" name = false ->
  extract_db_name_from_filename
    ("postgres_" ++ name ++ "_full_" ++ ts ++ ".sql") = Some name.
Proof.
  intros Hts Hne Hnl Htar Hsql. unfold extract_db_name_from_filename.
  assert (H1 : Py.contains ".tar"
                 ("postgres_" ++ name ++ "_full_" ++ ts ++ ".sql") = false).
  { rewrite contains_backup_name by (assumption || reflexivity).
    now rewrite Htar. }
  unfold Py.replace.
  rewrite (replace_from_absent ".tar.gz")
    by (apply (contains_longer ".tar" ".gz"), H1).
  rewrite (replace_from_absent ".tar") by exact H1.
  rewrite replace_backup_name by (assumption || reflexivity).
  change (Py.replace_from ".sql" "" 0 ".sql") with "".
  rewrite app_nil_r_s.
  now rewrite match_postgres.
Qed.

(** *** The timestamp of a valid time *)

Lemma is_digit_mod10 z : Re.is_digit (digit_char (z mod 10)) = true.
Proof.
  pose proof (Z.mod_pos_bound z 10 ltac:(lia)) as Hb.
  assert (H : (z mod 10 = 0 \/ z mod 10 = 1 \/ z mod 10 = 2 \/ z mod 10 = 3
               \/ z mod 10 = 4 \/ z mod 10 = 5 \/ z mod 10 = 6
               \/ z mod 10 = 7 \/ z mod 10 = 8 \/ z mod 10 = 9)%Z) by lia.
  repeat (destruct H as [->|H]; [reflexivity|]). now rewrite H.
Qed.

Lemma zero_pad_fixed w n :
  (0 <= n < 10 ^ Z.of_nat w)%Z -> zero_pad w n = fixed_digits w n.
Proof.
  intros [H1 H2]. unfold zero_pad.
  apply Z.leb_le in H1. apply Z.ltb_lt in H2. now rewrite H1, H2.
Qed.

(** The fields of a valid time, as [strftime] prints them. *)
Lemma timestamp_digits now :
  valid_datetime now ->
  timestamp now =
  fixed_digits 4 (year now) ++ "-" ++ fixed_digits 2 (month now) ++ "-"
  ++ fixed_digits 2 (day now) ++ "_" ++ fixed_digits 2 (hour now) ++ "-"
  ++ fixed_digits 2 (minute now) ++ "-" ++ fixed_digits 2 (second now).
Proof.
  intros (Hy&Hm&Hd&Hh&Hn&Hs&_). unfold timestamp.
  cbn [strftime directive Ascii.eqb Bool.eqb].
  rewrite !zero_pad_fixed by (cbn; lia).
  now rewrite app_nil_r_s.
Qed.

Lemma timestamp_is_timestamp now :
  valid_datetime now -> is_timestamp (timestamp now).
Proof.
  intros Hv. rewrite timestamp_digits by exact Hv.
  unfold is_timestamp. cbn [fixed_digits String.append].
  do 14 eexists. split; [reflexivity|].
  cbn [forallb]. now rewrite !is_digit_mod10.
Qed.

(** ** The decoder never returns an empty name *)

Lemma exec_rep_groups c n : forall pos s g k m,
  Re.exec_rep c n pos s g k = Some m -> exists pos' s', k pos' s' g = Some m.
Proof.
  induction n as [|n IH]; intros pos s g k m H; cbn in H; [eauto|].
  destruct s as [|a s]; [discriminate|].
  destruct (Re.cclass_match c a); [eauto | discriminate].
Qed.

(** A successful [c+?] has consumed at least one character of its input. *)
Lemma exec_lazy_plus_consumes c s : forall pos g k m,
  Re.exec_lazy_plus c pos s g k = Some m ->
  exists pos' s',
    k pos' s' g = Some m /\ pos < pos' /\ pos' - pos <= String.length s.
Proof.
  induction s as [|a s IH]; intros pos g k m H; cbn in H; [discriminate|].
  destruct (Re.cclass_match c a); [|discriminate].
  destruct (k (S pos) s g) as [m'|] eqn:Hk.
  - inversion H; subst. exists (S pos), s. cbn. split; [exact Hk | lia].
  - apply IH in H as (pos'&s'&H&Hlt&Hle). exists pos', s'. cbn.
    split; [exact H | lia].
Qed.

(** Without a group, a regex hands the groups on as it got them. *)
Lemma exec_groups r : group_free r = true -> forall pos s g k m,
  Re.exec r pos s g k = Some m -> exists pos' s', k pos' s' g = Some m.
Proof.
  induction r as [| |p|c n|c|r1 IH1|r1 IH1|r1 IH1 r2 IH2];
    intros Hf pos s g k m H; cbn [Re.exec group_free] in *.
  - destruct (pos =? 0)%nat; [eauto | discriminate].
  - destruct s as [|a [|b s]]; [eauto| |discriminate].
    destruct (Ascii.eqb a Re.newline); [eauto | discriminate].
  - destruct (Re.strip_prefix p s); [eauto | discriminate].
  - eapply exec_rep_groups; eauto.
  - apply exec_lazy_plus_consumes in H as (pos'&s'&H&_). eauto.
  - destruct (Re.exec r1 pos s g k) eqn:H1; [|eauto].
    inversion H; subst. eapply IH1; eauto.
  - discriminate.
  - apply andb_true_iff in Hf as [Hf1 Hf2].
    apply (IH1 Hf1) in H as (pos1&s1&H). eapply IH2; eauto.
Qed.

Lemma substring_nonempty n s :
  0 < n -> n <= String.length s -> substring 0 n s <> "".
Proof.
  intros Hn Hs. destruct n; [lia|]. destruct s; [cbn in Hs; lia|]. discriminate.
Qed.

Lemma decode_nonempty filename db_name :
  extract_db_name_from_filename filename = Some db_name -> db_name <> "".
Proof.
  unfold extract_db_name_from_filename, Re.match_.
  set (name := Py.replace _ _ _). clearbody name.
  change pattern with
    (Re.Seq Re.Bol (Re.Seq (Re.Lit "postgres_")
       (Re.Seq (Re.Group (Re.LazyPlus Re.Dot)) suffix_re))).
  cbn [Re.exec Nat.eqb String.length Nat.add].
  destruct (Re.strip_prefix "postgres_" name) as [rest|]; [|discriminate].
  destruct (Re.exec_lazy_plus _ _ _ _ _) as [g|] eqn:H; [|discriminate].
  intros ->.
  apply exec_lazy_plus_consumes in H as (pos'&s'&H&Hlt&Hle).
  apply (exec_groups suffix_re eq_refl) in H as (_&_&H).
  inversion H. apply substring_nonempty; lia.
Qed.

Lemma decode_truthy filename :
  Py.truthy_opt (extract_db_name_from_filename filename) =
  match extract_db_name_from_filename filename with
  | Some _ => true
  | None => false
  end.
Proof.
  destruct (extract_db_name_from_filename filename) as [n|] eqn:H;
    [|reflexivity].
  apply decode_nonempty in H. destruct n; [congruence | reflexivity].
Qed.

(** ** MySQL: the existence check and restore *)

(** C5 (as the code behaves): [MySQLHandler.restore] starts at most one
    child process, the [mysql] client fed with the backup file; the probe
    [SHOW DATABASES LIKE ...] of [_database_exists] is never started.
    The helper itself answers [True] when its probe fails or times out. *)
Theorem mysql_restore_skips_existence_check
    (self : MySQLHandler.t) (database : string) (input_file : Path.t)
    (w : World) :
  spawned (trace (MySQLHandler.restore self database input_file) w) =
    match open_read w (Path.str input_file) with
    | None =>
        [ mysql_call (MySQLHandler.password self) w
            [ "mysql"; "-h"; MySQLHandler.host self;
              "-P"; Py.str_int (MySQLHandler.port self);
              "-u"; MySQLHandler.username self; database ]
            (Some (Path.str input_file)) 3600 ]
    | Some _ => []
    end
  /\ ~ In (MySQLHandler._database_exists_cmd self database)
         (map call_argv
            (spawned (trace (MySQLHandler.restore self database input_file)
                        w)))
  /\ match child_of w (mysql_call (MySQLHandler.password self) w
                         (MySQLHandler._database_exists_cmd self database)
                         None 10) with
     | Hangs =>
         outcome (MySQLHandler._database_exists self database) w = inr true
     | Runs seconds rc out _ =>
         outcome (MySQLHandler._database_exists self database) w =
         if ((10 <? seconds) || negb (rc =? 0))%Z then inr true
         else inr (1 <? length (Py.split (Py.strip out) Re.newline))%nat
     | CannotStart _ => True
     end.
Proof.
  pose proof (mysql_restore_spawned self (MySQLHandler.password self)
                database input_file w) as Hs.
  rewrite mysql_with_password_id in Hs.
  split; [exact Hs|]. split.
  - rewrite Hs. destruct (open_read w (Path.str input_file)); cbn.
    + tauto.
    + intros [H|[]]. discriminate H.
  - pose proof (mysql_database_exists_assumes self database w) as H.
    destruct (child_of w _); auto.
Qed.

(** ** MySQL: the password stays out of the argument list *)

(** C6: for the connection probe, the existence check, backup and
    restore, the argument lists of the child processes are the same for
    any two passwords [p1], [p2]; the password reaches the child only as
    [MYSQL_PWD] in its environment (and not at all when it is empty). *)
Theorem mysql_password_only_in_environment
    (self : MySQLHandler.t) (p1 p2 : string) (database : string)
    (file : Path.t) (w : World) :
  let h1 := mysql_with_password p1 self in
  let h2 := mysql_with_password p2 self in
  let argvs {A} (m : M A) := map call_argv (spawned (trace m w)) in
  let envs {A} (m : M A) := map call_env (spawned (trace m w)) in
  let env1 :=
    if Py.truthy p1 then <["MYSQL_PWD" := p1]> (os_environ w)
    else os_environ w in
  (argvs (MySQLHandler.validate_connection h1) =
     argvs (MySQLHandler.validate_connection h2)
   /\ argvs (MySQLHandler._database_exists h1 database) =
        argvs (MySQLHandler._database_exists h2 database)
   /\ argvs (MySQLHandler.backup h1 database file) =
        argvs (MySQLHandler.backup h2 database file)
   /\ argvs (MySQLHandler.restore h1 database file) =
        argvs (MySQLHandler.restore h2 database file))
  /\ (envs (MySQLHandler.validate_connection h1) = [env1]
      /\ envs (MySQLHandler._database_exists h1 database) = [env1]
      /\ envs (MySQLHandler.backup h1 database file) = [env1]
      /\ Forall (eq env1) (envs (MySQLHandler.restore h1 database file))).
Proof.
  cbv beta zeta.
  rewrite !mysql_validate_connection_spawned, !mysql_database_exists_spawned,
    !mysql_backup_spawned, !mysql_restore_spawned.
  destruct (open_read w (Path.str file)); cbn; repeat split; repeat constructor.
Qed.

(** ** MongoDB: the password is an argument *)

Lemma mongo_base_cmd self p tool :
  Py.truthy (MongoDBHandler.username self) = true ->
  MongoDBHandler._build_base_cmd (mongo_with_password p self) tool =
  mongo_argv self p tool [].
Proof.
  intros H. unfold MongoDBHandler._build_base_cmd. cbn. rewrite H.
  reflexivity.
Qed.

(** C10: with a user name configured, every child process the MongoDB
    handler starts (connection probe, backup, restore) has the password
    verbatim in its argument list, right after [--password]; so the
    argument lists of two runs with different passwords differ. *)
Theorem mongo_password_in_argv
    (self : MongoDBHandler.t) (p1 p2 : string) (database : string)
    (file : Path.t) (w : World) :
  Py.truthy (MongoDBHandler.username self) = true ->
  p1 <> p2 ->
  let argvs {A} (m : M A) := map call_argv (spawned (trace m w)) in
  let target :=
    if Py.truthy database then database else MongoDBHandler.database self in
  let probe := [ "--eval"; "db.runCommand({ ping: 1 })" ] in
  let dump :=
    ([ ("--archive=" ++ Path.str file)%string; "--gzip" ]
     ++ if Py.truthy target then [ "--db"; target ] else [])%list in
  let load := [ "--archive=" ++ Path.str file; "--gzip" ] in
  (forall p,
     argvs (MongoDBHandler.validate_connection (mongo_with_password p self)) =
       (if Py.truthy_opt (which w "mongosh")
        then [ mongo_argv self p "mongosh" probe ] else [])
     /\ argvs (MongoDBHandler.backup (mongo_with_password p self)
                 database file) =
          [ mongo_argv self p "mongodump" dump ]
     /\ argvs (MongoDBHandler.restore (mongo_with_password p self)
                 database file) =
          [ mongo_argv self p "mongorestore" load ])
  /\ (forall tool rest,
        mongo_argv self p1 tool rest <> mongo_argv self p2 tool rest).
Proof.
  intros Hu Hp. cbv beta zeta. split.
  - intros p.
    rewrite mongo_validate_connection_spawned, mongo_backup_spawned,
      mongo_restore_spawned.
    unfold MongoDBHandler.validate_connection_cmd, MongoDBHandler.backup_cmd,
      MongoDBHandler.restore_cmd.
    rewrite !mongo_base_cmd by exact Hu.
    cbn [mongo_with_password MongoDBHandler.database].
    repeat split.
    + destruct (Py.truthy_opt (which w "mongosh")); reflexivity.
    + destruct (Py.truthy (if Py.truthy database then database
                           else MongoDBHandler.database self)); reflexivity.
  - intros tool rest H. apply Hp. unfold mongo_argv in H. cbn in H.
    congruence.
Qed.

Lemma mongo_password_in_argv_witness :
  map call_argv
    (spawned (trace (MongoDBHandler.backup
                       (mongo_with_password "s3cret"
                          (MongoDBHandler.init sample_config))
                       "mydb" (Path.of_str "out.archive")) hanging_world)) =
  [ [ "mongodump"; "--host"; "db.example.org"; "--port"; "27017";
      "--username"; "admin"; "--password"; "s3cret";
      "--authenticationDatabase"; "admin";
      "--archive=out.archive"; "--gzip"; "--db"; "mydb" ] ].
Proof.
  refine (proj1 (proj2 (proj1
    (mongo_password_in_argv (MongoDBHandler.init sample_config)
       "s3cret" "other" "mydb" (Path.of_str "out.archive") hanging_world
       _ _) "s3cret"))).
  - reflexivity.
  - discriminate.
Defined.

(** ** Timeouts of the external tools *)

(** C7 (as stated) fails: the existence check of the MySQL handler starts
    an external tool with a timeout of 10 seconds, and when the child is
    still running at that time the check does not fail: it answers
    [True]. *)
Lemma timeout_error_fails_for_existence_check :
  map call_timeout
    (spawned (trace (MySQLHandler._database_exists
                       (MySQLHandler.init sample_config) "mydb")
                hanging_world)) = [10%Z]
  /\ Forall (overruns hanging_world)
       (spawned (trace (MySQLHandler._database_exists
                          (MySQLHandler.init sample_config) "mydb")
                   hanging_world))
  /\ outcome (MySQLHandler._database_exists
                (MySQLHandler.init sample_config) "mydb") hanging_world
     = inr true
  /\ ~ (exists e,
          outcome (MySQLHandler._database_exists
                     (MySQLHandler.init sample_config) "mydb") hanging_world
          = inl e).
Proof.
  split; [reflexivity|]. split; [repeat constructor|].
  split; [reflexivity|]. intros [e H]. discriminate H.
Qed.

(** C7 (amended): every child process the MySQL and MongoDB handlers start
    is given a timeout: 10 seconds for the connection probes and the
    existence check, 3600 seconds for backup and restore.  When the child
    is still running at that time, the connection probes, backup and
    restore end with an error that reports the timeout: a [RuntimeError]
    saying so (MySQL, MongoDB probe) or the [TimeoutExpired] of
    [subprocess] itself (MongoDB backup and restore); the MySQL existence
    check answers [True] instead. *)
Theorem external_tools_time_out
    (my : MySQLHandler.t) (mo : MongoDBHandler.t) (database : string)
    (file : Path.t) (w : World) :
  let timeouts {A} (m : M A) := map call_timeout (spawned (trace m w)) in
  let pw := MySQLHandler.password my in
  (Forall (eq 10%Z) (timeouts (MySQLHandler.validate_connection my))
   /\ Forall (eq 10%Z) (timeouts (MySQLHandler.validate_tools my))
   /\ Forall (eq 10%Z) (timeouts (MySQLHandler._database_exists my database))
   /\ Forall (eq 3600%Z) (timeouts (MySQLHandler.backup my database file))
   /\ Forall (eq 3600%Z) (timeouts (MySQLHandler.restore my database file))
   /\ Forall (eq 10%Z) (timeouts (MongoDBHandler.validate_connection mo))
   /\ Forall (eq 10%Z) (timeouts (MongoDBHandler.validate_tools mo))
   /\ Forall (eq 3600%Z) (timeouts (MongoDBHandler.backup mo database file))
   /\ Forall (eq 3600%Z)
        (timeouts (MongoDBHandler.restore mo database file)))
  /\ (overruns w (mysql_call pw w (MySQLHandler.validate_connection_cmd my)
                    None 10) ->
      outcome (MySQLHandler.validate_connection my) w =
      inl (RuntimeError
             ("Connection timeout to MySQL at " ++ MySQLHandler.host my
              ++ ":" ++ Py.str_int (MySQLHandler.port my) ++ ". "
              ++ "Check that the server is running and network is "
              ++ "accessible.")))
  /\ (overruns w (mysql_call pw w
                    (MySQLHandler.backup_cmd my database file) None 3600) ->
      outcome (MySQLHandler.backup my database file) w =
      inl (RuntimeError
             ("Unexpected error during backup: Command '"
              ++ Py.repr_list (MySQLHandler.backup_cmd my database file)
              ++ "' timed out after 3600 seconds")))
  /\ (open_read w (Path.str file) = None ->
      overruns w (mysql_call pw w (MySQLHandler.restore_cmd my database)
                    (Some (Path.str file)) 3600) ->
      outcome (MySQLHandler.restore my database file) w =
      inl (RuntimeError
             ("Unexpected error during restore: Command '"
              ++ Py.repr_list (MySQLHandler.restore_cmd my database)
              ++ "' timed out after 3600 seconds")))
  /\ (Py.truthy_opt (which w "mongosh") = true ->
      overruns w (mongo_call w (MongoDBHandler.validate_connection_cmd mo)
                    10) ->
      outcome (MongoDBHandler.validate_connection mo) w =
      inl (RuntimeError
             ("Connection timeout to MongoDB at " ++ MongoDBHandler.host mo
              ++ ":" ++ Py.str_int (MongoDBHandler.port mo))))
  /\ (overruns w (mongo_call w (MongoDBHandler.backup_cmd mo database file)
                    3600) ->
      outcome (MongoDBHandler.backup mo database file) w =
      inl (TimeoutExpired (MongoDBHandler.backup_cmd mo database file) 3600))
  /\ (overruns w (mongo_call w (MongoDBHandler.restore_cmd mo file) 3600) ->
      outcome (MongoDBHandler.restore mo database file) w =
      inl (TimeoutExpired (MongoDBHandler.restore_cmd mo file) 3600))
  /\ (overruns w (mysql_call pw w
                    (MySQLHandler._database_exists_cmd my database)
                    None 10) ->
      outcome (MySQLHandler._database_exists my database) w = inr true).
Proof.
  cbv beta zeta. split; [|repeat split].
  - pose proof (mysql_with_password_id my) as Hid.
    pose proof (mysql_validate_connection_spawned my
                  (MySQLHandler.password my) w) as H1.
    pose proof (mysql_backup_spawned my (MySQLHandler.password my)
                  database file w) as H2.
    pose proof (mysql_restore_spawned my (MySQLHandler.password my)
                  database file w) as H3.
    pose proof (mysql_database_exists_spawned my (MySQLHandler.password my)
                  database w) as H4.
    rewrite Hid in H1, H2, H3, H4. rewrite H1, H2, H3, H4.
    rewrite mongo_validate_connection_spawned, mongo_backup_spawned,
      mongo_restore_spawned.
    repeat split; try (repeat constructor).
    + apply List.Forall_map.
      eapply List.Forall_impl; [|apply mysql_validate_tools_timeouts].
      cbn; congruence.
    + destruct (open_read w (Path.str file)); repeat constructor.
    + destruct (Py.truthy_opt (which w "mongosh")); repeat constructor.
    + apply List.Forall_map.
      eapply List.Forall_impl; [|apply mongo_validate_tools_timeouts].
      cbn; congruence.
  - apply mysql_validate_connection_timeout.
  - intros H. rewrite (mysql_backup_timeout _ _ _ _ H). reflexivity.
  - intros Ho H. rewrite (mysql_restore_timeout _ _ _ _ Ho H). reflexivity.
  - apply mongo_validate_connection_timeout.
  - apply mongo_backup_timeout.
  - apply mongo_restore_timeout.
  - apply mysql_database_exists_timeout.
Qed.

Lemma external_tools_time_out_witness :
  outcome (MySQLHandler.backup (MySQLHandler.init sample_config) "mydb"
             (Path.of_str "out.sql")) hanging_world =
  inl (RuntimeError
         ("Unexpected error during backup: Command '"
          ++ "['mysqldump', '-h', 'db.example.org', '-P', '3306', "
          ++ "'-u', 'admin', '--result-file', 'out.sql', 'mydb']"
          ++ "' timed out after 3600 seconds"))
  /\ outcome (MongoDBHandler.restore (MongoDBHandler.init sample_config)
                "mydb" (Path.of_str "in.archive")) hanging_world =
     inl (TimeoutExpired
            [ "mongorestore"; "--host"; "db.example.org"; "--port"; "27017";
              "--username"; "admin"; "--password"; "s3cret";
              "--authenticationDatabase"; "admin";
              "--archive=in.archive"; "--gzip" ] 3600).
Proof.
  split.
  - refine (proj1 (proj2 (proj2
      (external_tools_time_out (MySQLHandler.init sample_config)
         (MongoDBHandler.init sample_config) "mydb" (Path.of_str "out.sql")
         hanging_world))) _).
    exact I.
  - refine (proj1 (proj2 (proj2 (proj2 (proj2 (proj2 (proj2
      (external_tools_time_out (MySQLHandler.init sample_config)
         (MongoDBHandler.init sample_config) "mydb"
         (Path.of_str "in.archive") hanging_world))))))) _).
    exact I.
Defined.

(** ** The backup file name *)

Lemma sample_time_valid : valid_datetime sample_time.
Proof. unfold valid_datetime; cbn; lia. Qed.

Lemma fixed_digits2 n : fixed_digits 2 n = digits2 n.
Proof. reflexivity. Qed.

Lemma fixed_digits4 n : fixed_digits 4 n = digits4 n.
Proof.
  unfold digits4. cbn [fixed_digits String.append string_of_list_ascii].
  rewrite !Z.div_div by lia. reflexivity.
Qed.

Lemma timestamp_fields now :
  valid_datetime now ->
  strftime now "%Y-%m-%d_%H-%M-%S" =
  digits4 (year now) ++ "-" ++ digits2 (month now) ++ "-"
  ++ digits2 (day now) ++ "_" ++ digits2 (hour now) ++ "-"
  ++ digits2 (minute now) ++ "-" ++ digits2 (second now).
Proof.
  intros Hv. change (strftime now _) with (timestamp now).
  rewrite timestamp_digits by exact Hv.
  now rewrite fixed_digits4, !fixed_digits2.
Qed.

(** C2 (as stated) fails: asked for the database [sqlite], the SQLite
    handler names the file after the stem of its path; and the MongoDB
    handler writes [mongo_<name>_<timestamp>.archive]. *)
Lemma backup_name_format_fails :
  handler_get_default_backup_name
    (SQLite (SQLiteHandler.init sample_config)) "sqlite" sample_time
  = "sqlite_data_full_2026-01-07_23-45-12.db"
  /\ artifact_name "sqlite" "sqlite" sample_time "db"
     = "sqlite_sqlite_full_2026-01-07_23-45-12.db"
  /\ handler_get_default_backup_name
       (MongoDB (MongoDBHandler.init sample_config)) "mydb" sample_time
     = "mongo_mydb_2026-01-07_23-45-12.archive"
  /\ artifact_name "mongodb" "mydb" sample_time "archive"
     = "mongodb_mydb_full_2026-01-07_23-45-12.archive"
  /\ ~ (forall h db_name now,
          valid_datetime now ->
          handler_get_default_backup_name h db_name now
          = artifact_name (tag_of h) db_name now (ext_of h)).
Proof.
  repeat split; try reflexivity.
  intros H.
  specialize (H (MongoDB (MongoDBHandler.init sample_config)) "mydb"
                sample_time sample_time_valid).
  discriminate H.
Qed.

(** C2 (amended): at a valid time [now], the MySQL handler names the
    backup of [database] [mysql_<database>_full_<YYYY-MM-DD>_<HH-MM-SS>.sql];
    the SQLite handler names it [sqlite_<name>_full_<...>.db], where
    [<name>] is [database], or the stem of the configured path when
    [database] is empty or is [sqlite].  [mysql] and [sqlite] are the tags
    of these classes in the factory; fractions of a second are dropped. *)
Theorem backup_name_format
    (my : MySQLHandler.t) (sq : SQLiteHandler.t) (database : string)
    (now : datetime) :
  valid_datetime now ->
  MySQLHandler.get_default_backup_name my database now
    = artifact_name "mysql" database now "sql"
  /\ SQLiteHandler.get_default_backup_name sq database now
     = artifact_name "sqlite"
         (if Py.truthy database && negb (String.eqb database "sqlite")
          then database else Path.stem (SQLiteHandler.db_path sq))
         now "db"
  /\ DatabaseFactory.dict_get DatabaseFactory._handlers "mysql"
     = Some DatabaseFactory.MySQLHandler_
  /\ DatabaseFactory.dict_get DatabaseFactory._handlers "sqlite"
     = Some DatabaseFactory.SQLiteHandler_.
Proof.
  intros Hv. unfold MySQLHandler.get_default_backup_name,
    SQLiteHandler.get_default_backup_name, artifact_name.
  rewrite !timestamp_fields by exact Hv.
  repeat split; reflexivity.
Qed.

Lemma backup_name_format_witness :
  MySQLHandler.get_default_backup_name (MySQLHandler.init sample_config)
    "my_production_db" sample_time
  = "mysql_my_production_db_full_2026-01-07_23-45-12.sql".
Proof.
  refine (eq_trans
    (proj1 (backup_name_format (MySQLHandler.init sample_config)
              (SQLiteHandler.init sample_config) "my_production_db"
              sample_time _)) _).
  - unfold valid_datetime; cbn; lia.
  - reflexivity.
Defined.

(** ** Decoding what the handlers encode *)

(** A name that does not start like a Postgres backup decodes to
    nothing. *)
Lemma decode_other_prefix c s :
  Ascii.eqb "." c = false -> Ascii.eqb "p" c = false ->
  extract_db_name_from_filename (String c s) = None.
Proof.
  intros Hdot Hp. unfold extract_db_name_from_filename.
  rewrite !replace_first by exact Hdot.
  unfold Re.match_.
  change pattern with
    (Re.Seq Re.Bol (Re.Seq (Re.Lit "postgres_")
       (Re.Seq (Re.Group (Re.LazyPlus Re.Dot)) suffix_re))).
  cbn [Re.exec Nat.eqb Re.strip_prefix]. now rewrite Hp.
Qed.

(** C1 (as stated) fails: the name the MySQL handler gives to a backup
    of [mydb], a database name free of timestamp suffixes, decodes to
    nothing. *)
Lemma decode_encode_roundtrip_fails :
  has_timestamp_suffix "mydb" = false
  /\ extract_db_name_from_filename
       (MySQLHandler.get_default_backup_name
          (MySQLHandler.init sample_config) "mydb" sample_time) = None
  /\ ~ (forall h db_name now,
          valid_datetime now ->
          has_timestamp_suffix db_name = false ->
          extract_db_name_from_filename
            (handler_get_default_backup_name h db_name now) = Some db_name).
Proof.
  split; [reflexivity|]. split; [reflexivity|].
  intros H.
  specialize (H (MySQL (MySQLHandler.init sample_config)) "mydb"
                sample_time sample_time_valid eq_refl).
  discriminate H.
Qed.

(** Names the decoder was not written for: an empty name, and a name
    with one of the stripped extensions in it. *)
Lemma decode_postgres_limits :
  extract_db_name_from_filename "postgres__full_2026-01-07_23-45-12.sql"
  = None
  /\ extract_db_name_from_filename
       "postgres_app.sqlite_full_2026-01-07_23-45-12.sql"
     = Some "appite".
Proof. split; reflexivity. Qed.

(** The name the Postgres handler gives to a backup is of the form the
    decoder documents. *)
Lemma postgres_backup_name pg database now :
  PostgresHandler.get_default_backup_name pg database now =
  "postgres_" ++ database ++ "_full_" ++ timestamp now ++ ".sql".
Proof. reflexivity. Qed.

(** C1 (amended): for a valid time and a database name that is free of
    timestamp suffixes, is not empty, has no newline and contains neither
    [.tar] nor [.sql], decoding the name
    [postgres_<db_name>_full_<timestamp>.sql], the format the decoder
    documents, gives the database name back.  (By [decode_postgres] the
    first of these conditions is not needed: the pattern is anchored at
    the end of the name.)  The names the MySQL, SQLite and MongoDB handlers
    produce decode to nothing. *)
Theorem decode_encode_roundtrip
    (my : MySQLHandler.t) (sq : SQLiteHandler.t) (mo : MongoDBHandler.t)
    (db_name : string) (now : datetime) :
  (valid_datetime now ->
   has_timestamp_suffix db_name = false ->
   db_name <> "" ->
   no_char Re.newline db_name = true ->
   Py.contains ".tar" db_name = false ->
   Py.contains ".sql" db_name = false ->
   extract_db_name_from_filename
     ("postgres_" ++ db_name ++ "_full_"
      ++ strftime now "%Y-%m-%d_%H-%M-%S" ++ ".sql") = Some db_name)
  /\ extract_db_name_from_filename
       (MySQLHandler.get_default_backup_name my db_name now) = None
  /\ extract_db_name_from_filename
       (SQLiteHandler.get_default_backup_name sq db_name now) = None
  /\ extract_db_name_from_filename
       (MongoDBHandler.get_default_backup_name mo db_name now) = None.
Proof.
  split; [|split; [|split]].
  - intros Hv _ Hne Hnl Htar Hsql.
    change (strftime now _) with (timestamp now).
    apply decode_postgres; auto using timestamp_is_timestamp.
  - apply decode_other_prefix; reflexivity.
  - apply decode_other_prefix; reflexivity.
  - apply decode_other_prefix; reflexivity.
Qed.

Lemma decode_encode_roundtrip_witness :
  extract_db_name_from_filename
    "postgres_my_production_db_full_2026-01-07_23-45-12.sql"
  = Some "my_production_db".
Proof.
  refine (proj1
    (decode_encode_roundtrip (MySQLHandler.init sample_config)
       (SQLiteHandler.init sample_config) (MongoDBHandler.init sample_config)
       "my_production_db" sample_time)
    _ _ _ _ _ _).
  - unfold valid_datetime; cbn; lia.
  - reflexivity.
  - discriminate.
  - reflexivity.
  - reflexivity.
  - reflexivity.
Defined.

(** C8: the two documented cases of the decoder. *)
Theorem decode_documented_cases :
  extract_db_name_from_filename
    "postgres_my_production_db_full_2026-01-07_23-45-12.sql.tar"
  = Some "my_production_db"
  /\ extract_db_name_from_filename "random_file.sql" = None.
Proof. split; reflexivity. Qed.

(** ** The factory *)

(** C3: [get_handler] answers for every tag: for the four supported tags
    it builds the handler of the class registered under the tag; for any
    other tag it raises a [ValueError] whose message names the tag and
    lists the supported tags. *)
Theorem get_handler_total (db_type : string) (config : Config) :
  DatabaseFactory.get_handler db_type config =
    (if String.eqb db_type "postgres"
     then inr (Postgres (PostgresHandler.init config))
     else if String.eqb db_type "mysql"
     then inr (MySQL (MySQLHandler.init config))
     else if String.eqb db_type "sqlite"
     then inr (SQLite (SQLiteHandler.init config))
     else if String.eqb db_type "mongodb"
     then inr (MongoDB (MongoDBHandler.init config))
     else inl (ValueError
                 ("Unsupported database type: " ++ db_type
                  ++ ". Supported types: "
                  ++ "['postgres', 'mysql', 'sqlite', 'mongodb']")))
  /\ match DatabaseFactory.get_handler db_type config with
     | inr h =>
         DatabaseFactory.dict_get DatabaseFactory._handlers db_type
         = Some (DatabaseFactory.class_of h)
         /\ tag_of h = db_type
     | inl _ =>
         ~ In db_type (DatabaseFactory.keys DatabaseFactory._handlers)
     end.
Proof.
  unfold DatabaseFactory.get_handler.
  cbn [DatabaseFactory.dict_get DatabaseFactory._handlers].
  rewrite !(String.eqb_sym _ db_type).
  destruct (String.eqb_spec db_type "postgres") as [->|H1];
    [split; [reflexivity | split; reflexivity]|].
  destruct (String.eqb_spec db_type "mysql") as [->|H2];
    [split; [reflexivity | split; reflexivity]|].
  destruct (String.eqb_spec db_type "sqlite") as [->|H3];
    [split; [reflexivity | split; reflexivity]|].
  destruct (String.eqb_spec db_type "mongodb") as [->|H4];
    [split; [reflexivity | split; reflexivity]|].
  split; [reflexivity|].
  cbn. intros [H|[H|[H|[H|[]]]]]; congruence.
Qed.

(** ** The restore command *)

Ltac cli_step :=
  match goal with
  | |- context [match load_config ?w ?c with _ => _ end] =>
      destruct (load_config w c) eqn:?
  | |- context [match logger_setup ?w ?c with _ => _ end] =>
      destruct (logger_setup w c) eqn:?
  | |- context [match get_postgres_config ?c with _ => _ end] =>
      destruct (get_postgres_config c) eqn:?
  | |- context [match postgres_method ?w ?m ?a with _ => _ end] =>
      destruct (postgres_method w m a) eqn:?
  | |- context [match extract_db_name_from_filename ?f with _ => _ end] =>
      destruct (extract_db_name_from_filename f) eqn:?
  | |- context [match copy2 ?w ?a ?b with _ => _ end] =>
      destruct (copy2 w a b) eqn:?
  | |- context [match ?e with ValueError _ => _ | _ => _ end] =>
      destruct e eqn:?
  end.

Ltac cli_red :=
  cbv beta iota zeta delta
    [trace outcome fst snd bind ret raise tell ask try_except subprocess_run
     with_open shutil_copy2 typer_echo typer_confirm setup_logger
     logger_debug logger_info logger_warning logger_error shutil_which
     app negb andb orb default fmap option_fmap option_map id
     restore restore_setup restore_db_name restore_except perform_restore
     handler_validate_tools handler_restore
     PostgresHandler.validate_tools PostgresHandler.restore
     PostgresHandler.call].

Ltac cli := cli_red; repeat (cli_step; cli_red).

(** C9: once the configuration is loaded and the handler built, the
    restore command passes to [perform_restore] the explicit database name
    if one is given, otherwise the name decoded from the base name of the
    file; and when nothing can be decoded it prints the guidance that names
    the expected file name format and exits with status 1 without calling
    [perform_restore], whatever that function is. *)
Theorem restore_resolves_db_name
    (perform_restore_ : DatabaseHandler -> string -> Path.t -> bool -> M unit)
    (file : string) (db_name : option string) (config_file : option string)
    (yes : bool) (w : World) (loader : ConfigLoader) (db_config : Config) :
  load_config w config_file = inr loader ->
  logger_setup w
    (Path.str (Path.div (get_backup_directory loader) "clidup.log")) = None ->
  get_postgres_config loader = inr db_config ->
  let log_file := Path.div (get_backup_directory loader) "clidup.log" in
  let db_handler := Postgres (PostgresHandler.init db_config) in
  let proceed (name : string) : M unit :=
    try_except
      (perform_restore_ db_handler name (Path.of_str file) yes ;;;
       typer_echo ("Logs: " ++ Path.str log_file) false)
      restore_except in
  let command := restore perform_restore_ postgres file db_name config_file yes in
  match db_name with
  | Some name => command w = proceed name w
  | None =>
      match extract_db_name_from_filename (Path.name (Path.of_str file)) with
      | Some name =>
          command w =
          (Echo ("Info: Detected database name from filename: " ++ name) false
             :: trace (proceed name) w,
           outcome (proceed name) w)
      | None =>
          command w =
          ([ Echo ("Error: Could not detect database name from filename. "
                   ++ "Please specify --db-name explicitly." ++ nl
                   ++ "Expected format: "
                   ++ "postgres_<db_name>_full_<YYYY-MM-DD>_<HH-MM-SS>.sql")
               true;
             Echo "Error: Restore failed: " true ],
           inl (Exit 1))
      end
  end.
Proof.
  intros Hload Hlog Hcfg. cbv zeta.
  destruct db_name as [name|].
  - unfold restore, restore_setup, restore_db_name.
    cbv beta iota zeta delta
      [trace outcome fst snd bind ret raise tell ask try_except setup_logger
       app typer_echo].
    rewrite Hload. cbv beta iota zeta. rewrite Hlog, Hcfg. 
    cbv beta iota zeta delta [app].
    destruct (perform_restore_ _ _ _ _ w) as [tr [e|[]]]; reflexivity.
  - unfold restore, restore_setup, restore_db_name.
    rewrite decode_truthy.
    destruct (extract_db_name_from_filename _) as [name|] eqn:Hd.
    + cbv beta iota zeta delta
        [trace outcome fst snd bind ret raise tell ask try_except
         setup_logger app typer_echo default].
      rewrite Hload. cbv beta iota zeta. rewrite Hlog, Hcfg.
      cbv beta iota zeta delta [app].
      destruct (perform_restore_ _ _ _ _ w) as [tr [e|[]]]; try reflexivity.
      destruct (restore_except e) as [h|]; [|reflexivity].
      destruct (h w); reflexivity.
    + cbv beta iota zeta delta
        [trace outcome fst snd bind ret raise tell ask try_except
         setup_logger app typer_echo default].
      rewrite Hload. cbv beta iota zeta. rewrite Hlog, Hcfg.
      reflexivity.
Qed.

Lemma restore_resolves_db_name_witness :
  restore perform_restore postgres "random_file.sql" None None false
    hanging_world =
  ([ Echo ("Error: Could not detect database name from filename. "
           ++ "Please specify --db-name explicitly." ++ nl
           ++ "Expected format: "
           ++ "postgres_<db_name>_full_<YYYY-MM-DD>_<HH-MM-SS>.sql") true;
     Echo "Error: Restore failed: " true ],
   inl (Exit 1)).
Proof.
  refine (restore_resolves_db_name perform_restore "random_file.sql" None
            None false hanging_world
            {| get_backup_directory := Path.of_str "backups";
               get_postgres_config := inr sample_config |}
            sample_config _ _ _).
  - reflexivity.
  - reflexivity.
  - reflexivity.
Defined.

(** ** The confirmation gate *)

Lemma restore_invoked_app tr1 tr2 :
  restore_invoked (tr1 ++ tr2)%list =
  restore_invoked tr1 || restore_invoked tr2.
Proof. apply existsb_app. Qed.

Lemma validate_tools_no_restore h w :
  restore_invoked (trace (handler_validate_tools h) w) = false.
Proof.
  destruct h as [p|m|s|m]; unfold handler_validate_tools.
  - cli; reflexivity.
  - mysql_start (MySQLHandler.password m); run; reflexivity.
  - unfold SQLiteHandler.validate_tools. run; reflexivity.
  - mongo_start; run; reflexivity.
Qed.

Lemma perform_restore_declined h db_name backup_file w :
  (forall n f, confirm_answer w n f = false) ->
  restore_invoked (trace (perform_restore h db_name backup_file false) w)
  = false
  /\ outcome (perform_restore h db_name backup_file false) w =
     match outcome (handler_validate_tools h) w with
     | inl e => inl e
     | inr _ => inl Abort
     end.
Proof.
  intros Hno. pose proof (validate_tools_no_restore h w) as Hv.
  unfold perform_restore, trace, outcome in *.
  cbv beta iota zeta delta [bind typer_confirm raise fst snd] in *.
  destruct (handler_validate_tools h w) as [tr [e|b]]; cbn [fst snd] in *.
  - split; [exact Hv | reflexivity].
  - rewrite Hno. cbn [fst snd]. split; [|reflexivity].
    rewrite !restore_invoked_app, Hv. reflexivity.
Qed.

(** C4: when skip-confirmation is not set and the user declines at the
    prompt, the restore orchestration ends with an error (the abort, unless
    the validation of the tools failed first) and the handler's restore
    method has not been called; the restore command then exits with
    status 1. *)
Theorem restore_declined_never_restores
    (h : DatabaseHandler) (db_name : string) (backup_file : Path.t)
    (file : string) (db_name_option config_file : option string)
    (w : World) :
  (forall n f, confirm_answer w n f = false) ->
  let direct := perform_restore h db_name backup_file false in
  let command :=
    restore perform_restore postgres file db_name_option config_file false in
  restore_invoked (trace direct w) = false
  /\ outcome direct w =
     match outcome (handler_validate_tools h) w with
     | inl e => inl e
     | inr _ => inl Abort
     end
  /\ restore_invoked (trace command w) = false
  /\ outcome command w = inl (Exit 1).
Proof.
  intros Hno. cbv zeta.
  destruct (perform_restore_declined h db_name backup_file w Hno) as [H1 H2].
  split; [exact H1|]. split; [exact H2|].
  assert (Hp : forall hd n f,
             exists tr e, perform_restore hd n f false w = (tr, inl e)
                          /\ restore_invoked tr = false).
  { intros hd n f.
    destruct (perform_restore_declined hd n f w Hno) as [Ha Hb].
    unfold trace, outcome in *.
    destruct (perform_restore hd n f false w) as [tr [e|u]];
      cbn [fst snd] in *.
    - eauto.
    - destruct (snd (handler_validate_tools hd w)); discriminate. }
  unfold restore, restore_setup, restore_db_name, trace, outcome.
  rewrite decode_truthy.
  cbv beta iota zeta delta
    [fst snd bind ret raise tell ask try_except setup_logger
     typer_echo default restore_except id].
  destruct (load_config w config_file) as [e|loader];
    [destruct e; split; reflexivity|].
  cbv beta iota zeta.
  destruct (logger_setup w _) as [e|];
    [destruct e; split; reflexivity|].
  destruct (get_postgres_config loader) as [e|cfg];
    [destruct e; split; reflexivity|].
  cbv beta iota zeta.
  destruct db_name_option as [n|];
    [|destruct (extract_db_name_from_filename _) as [n|]].
  - destruct (Hp (Postgres (PostgresHandler.init cfg)) n (Path.of_str file))
      as (tr0&e0&Heq&Hn).
    destruct (perform_restore _ n _ false w) as [tr [e|u]];
      inversion Heq; subst.
    destruct e0; cbv beta iota zeta delta [fst snd];
      rewrite !restore_invoked_app, Hn; split; reflexivity.
  - destruct (Hp (Postgres (PostgresHandler.init cfg)) n (Path.of_str file))
      as (tr0&e0&Heq&Hn).
    destruct (perform_restore _ n _ false w) as [tr [e|u]];
      inversion Heq; subst.
    destruct e0; cbv beta iota zeta delta [fst snd];
      rewrite !restore_invoked_app, Hn; split; reflexivity.
  - split; reflexivity.
Qed.

Lemma restore_declined_never_restores_witness :
  restore_invoked
    (trace (restore perform_restore postgres
              "backups/postgres_mydb_full_2026-01-07_23-45-12.sql"
              None None false) hanging_world) = false
  /\ outcome (restore perform_restore postgres
                "backups/postgres_mydb_full_2026-01-07_23-45-12.sql"
                None None false) hanging_world = inl (Exit 1).
Proof.
  refine (proj2 (proj2
    (restore_declined_never_restores
       (Postgres (PostgresHandler.init sample_config)) "mydb"
       (Path.of_str "backups/postgres_mydb_full_2026-01-07_23-45-12.sql")
       "backups/postgres_mydb_full_2026-01-07_23-45-12.sql" None None
       hanging_world _))).
  intros n f. reflexivity.
Defined.

(** The run of the declined restore, event by event. *)
Example restore_declined_trace :
  trace (restore perform_restore postgres
           "backups/postgres_mydb_full_2026-01-07_23-45-12.sql"
           None None false) hanging_world =
  [ Echo "Info: Detected database name from filename: mydb" false;
    Invoke Validate_tools [];
    Confirm "mydb" "backups/postgres_mydb_full_2026-01-07_23-45-12.sql";
    Echo "Error: Restore failed: " true ].
Proof. reflexivity. Qed.

(** With [--yes] the same command reaches the handler. *)
Example restore_confirmed_trace :
  trace (restore perform_restore postgres
           "backups/postgres_mydb_full_2026-01-07_23-45-12.sql"
           None None true) hanging_world =
  [ Echo "Info: Detected database name from filename: mydb" false;
    Invoke Validate_tools [];
    Invoke Restore
      [ "mydb"; "backups/postgres_mydb_full_2026-01-07_23-45-12.sql" ];
    Echo "Logs: backups/clidup.log" false ].
Proof. reflexivity. Qed.

(** * Further properties *)

(** ** What a decoded name is *)

Lemma strip_prefix_app p s s' :
  Re.strip_prefix p s = Some s' -> s = p ++ s'.
Proof.
  revert s. induction p as [|a p IH]; intros s H; cbn in H.
  - now inversion H.
  - destruct s as [|b s]; [discriminate|].
    destruct (Ascii.eqb_spec a b) as [->|]; [|discriminate].
    cbn. now rewrite (IH _ H).
Qed.

(** A successful [c+?] has split its input. *)
Lemma exec_lazy_plus_split c s : forall pos g k m,
  Re.exec_lazy_plus c pos s g k = Some m ->
  exists x s',
    s = x ++ s' /\ x <> ""
    /\ forallb (Re.cclass_match c) (list_ascii_of_string x) = true
    /\ k (pos + String.length x)%nat s' g = Some m.
Proof.
  induction s as [|a s IH]; intros pos g k m H; cbn in H; [discriminate|].
  destruct (Re.cclass_match c a) eqn:Ha; [|discriminate].
  destruct (k (S pos) s g) as [m'|] eqn:Hk.
  - inversion H; subst. exists (String a ""), s. cbn. rewrite Ha.
    replace (pos + 1)%nat with (S pos) by lia. repeat split; congruence.
  - apply IH in H as (x&s'&->&Hx&Hc&H). exists (String a x), s'. cbn.
    rewrite Ha, Hc.
    replace (pos + S (String.length x))%nat
      with (S pos + String.length x)%nat by lia.
    repeat split; congruence.
Qed.

Lemma exec_rep_min c n after : forall pos s g k,
  (forall pos' s' g', k pos' s' g' <> None -> after <= String.length s') ->
  Re.exec_rep c n pos s g k <> None -> n + after <= String.length s.
Proof.
  induction n as [|n IH]; intros pos s g k Hk H; cbn in H.
  - apply Hk in H. lia.
  - destruct s as [|a s]; [congruence|].
    destruct (Re.cclass_match c a); [|congruence].
    apply IH in H; [|exact Hk]. cbn. lia.
Qed.

Lemma exec_min r : forall after pos s g k,
  (forall pos' s' g', k pos' s' g' <> None -> after <= String.length s') ->
  Re.exec r pos s g k <> None -> min_input r after <= String.length s.
Proof.
  induction r as [| |p|c n|c|r1 IH1|r1 IH1|r1 IH1 r2 IH2];
    intros after pos s g k Hk H; cbn [Re.exec min_input] in *.
  - destruct (pos =? 0)%nat; [eauto | congruence].
  - destruct s as [|a [|b s]]; [eauto| |congruence].
    destruct (Ascii.eqb a Re.newline); [eauto | congruence].
  - destruct (Re.strip_prefix p s) as [s'|] eqn:Hp; [|congruence].
    apply strip_prefix_length in Hp. apply Hk in H. lia.
  - eapply exec_rep_min; eauto.
  - destruct (Re.exec_lazy_plus c pos s g k) as [m|] eqn:E; [|congruence].
    apply exec_lazy_plus_split in E as (x&s'&->&Hx&_&E).
    assert (Hne : k (pos + String.length x)%nat s' g <> None) by congruence.
    apply Hk in Hne. rewrite length_app_s.
    destruct x; [congruence | cbn; lia].
  - destruct (Re.exec r1 pos s g k) eqn:H1.
    + assert (Hne : Re.exec r1 pos s g k <> None) by congruence.
      apply (IH1 after) in Hne; [lia | exact Hk].
    + apply Hk in H. lia.
  - eapply IH1; [|exact H]. intros pos' s' g' Hk'. eapply Hk, Hk'.
  - eapply IH1; [|exact H]. intros pos' s' g' H2.
    eapply IH2; [|exact H2]. exact Hk.
Qed.

Lemma dot_no_newline x :
  forallb (Re.cclass_match Re.Dot) (list_ascii_of_string x) = true ->
  no_char Re.newline x = true.
Proof.
  induction x as [|a x IH]; [reflexivity|].
  cbn [no_char list_ascii_of_string forallb Re.cclass_match].
  rewrite (Ascii.eqb_sym a). intros H.
  apply andb_true_iff in H as [-> H]. now apply IH.
Qed.

(** What a successful match of the pattern says about its subject. *)
Lemma match_pattern_inv s db_name :
  Re.match_ pattern s = Some (Some db_name) ->
  exists rest,
    s = "postgres_" ++ db_name ++ rest
    /\ db_name <> "" /\ no_char Re.newline db_name = true
    /\ String.prefix "_full_" rest = true
    /\ 22 <= String.length rest <= 26.
Proof.
  unfold Re.match_.
  change pattern with
    (Re.Seq Re.Bol (Re.Seq (Re.Lit "postgres_")
       (Re.Seq (Re.Group (Re.LazyPlus Re.Dot)) suffix_re))).
  cbn [Re.exec Nat.eqb String.length Nat.add].
  destruct (Re.strip_prefix "postgres_" s) as [s1|] eqn:Hp; [|discriminate].
  apply strip_prefix_app in Hp. subst s. intros H.
  apply exec_lazy_plus_split in H as (x&rest&->&Hx&Hc&H).
  replace (9 + String.length x - 9)%nat with (String.length x) in H by lia.
  rewrite substring_app_l in H.
  assert (Hne : Re.exec suffix_re (9 + String.length x) rest (Some x)
                  (fun _ _ g' => Some g') <> None) by congruence.
  pose proof (exec_bound _ None _ _ _ _ (fun _ _ _ _ => I) Hne) as Hmax.
  pose proof (exec_min suffix_re 0 _ _ _ _
                (fun _ s' _ _ => Nat.le_0_l (String.length s')) Hne) as Hmin.
  cbn in Hmax, Hmin.
  apply (exec_groups suffix_re eq_refl) in H as (_&_&H).
  inversion H; subst. exists rest.
  assert (Hpre : String.prefix "_full_" rest = true).
  { unfold suffix_re in Hne. cbn [Re.seq Re.exec] in Hne.
    destruct (Re.strip_prefix "_full_" rest) as [r|] eqn:Hr; [|congruence].
    apply strip_prefix_app in Hr. subst rest. clear.
    cbn [String.append]. rewrite !prefix_cons, prefix_nil. reflexivity. }
  split; [reflexivity|]. split; [exact Hx|].
  split; [now apply dot_no_newline|]. split; [exact Hpre | lia].
Qed.

(** X1: a name returned by the decoder is never empty and never contains
    a newline. *)
Theorem decoded_name_not_empty (filename db_name : string) :
  extract_db_name_from_filename filename = Some db_name ->
  db_name <> "" /\ no_char Re.newline db_name = true.
Proof.
  unfold extract_db_name_from_filename.
  destruct (Re.match_ pattern _) as [[n|]|] eqn:H; try discriminate.
  intros [= ->]. apply match_pattern_inv in H as (rest&_&H1&H2&_).
  now split.
Qed.

Lemma decoded_name_not_empty_witness :
  "my_production_db" <> ""
  /\ no_char Re.newline "my_production_db" = true.
Proof.
  exact (decoded_name_not_empty
           "postgres_my_production_db_full_2026-01-07_23-45-12.sql.tar"
           "my_production_db" eq_refl).
Defined.

(** X2: when the decoder returns a name, the file name stripped of its
    extensions is [postgres_], then that name, then a tail that starts
    with [_full_] and is 22 to 26 characters long. *)
Theorem decoded_name_position (filename db_name : string) :
  extract_db_name_from_filename filename = Some db_name ->
  exists rest,
    strip_extensions filename = "postgres_" ++ db_name ++ rest
    /\ String.prefix "_full_" rest = true
    /\ 22 <= String.length rest <= 26.
Proof.
  unfold extract_db_name_from_filename, strip_extensions.
  destruct (Re.match_ pattern _) as [[n|]|] eqn:H; try discriminate.
  intros [= ->]. apply match_pattern_inv in H as (rest&H0&_&_&H3&H4).
  exists rest. now repeat split.
Qed.

Lemma decoded_name_position_witness :
  exists rest,
    strip_extensions
      "postgres_my_production_db_full_2026-01-07_23-45-12.sql.tar"
    = "postgres_" ++ "my_production_db" ++ rest
    /\ String.prefix "_full_" rest = true
    /\ 22 <= String.length rest <= 26.
Proof.
  exact (decoded_name_position
           "postgres_my_production_db_full_2026-01-07_23-45-12.sql.tar"
           "my_production_db" eq_refl).
Defined.

(** ** Decoding with other extensions and timestamps *)

Lemma replace_after_tail old name tail ext :
  no_char "." (String "_" tail) = true ->
  no_char "_" (String "." old) = true ->
  Py.contains (String "." old) name = false ->
  Py.replace_from (String "." old) "" 0
    ("postgres_" ++ name ++ String "_" tail ++ ext) =
  "postgres_" ++ name ++ String "_" tail
  ++ Py.replace_from (String "." old) "" 0 ext.
Proof.
  intros Htail Hold Hname.
  rewrite replace_from_app_no_first by reflexivity. f_equal.
  change (String "_" tail ++ ext) with (String "_" (tail ++ ext)).
  rewrite replace_from_app_sep by assumption. f_equal.
  change (String "_" (tail ++ ext)) with (String "_" tail ++ ext).
  now rewrite replace_from_app_no_first by exact Htail.
Qed.

(** Stripping the extensions of a backup name touches the extension
    only. *)
Lemma strip_extensions_backup_name name tail ext :
  no_char "." (String "_" tail) = true ->
  Py.contains ".tar" name = false -> Py.contains ".sql" name = false ->
  strip_extensions ("postgres_" ++ name ++ String "_" tail ++ ext) =
  "postgres_" ++ name ++ String "_" tail ++ strip_extensions ext.
Proof.
  intros Htail Htar Hsql. unfold strip_extensions, Py.replace.
  rewrite (replace_after_tail "tar.gz")
    by (try assumption; try reflexivity;
        apply (contains_longer ".tar" ".gz"), Htar).
  rewrite (replace_after_tail "tar") by (assumption || reflexivity).
  now rewrite (replace_after_tail "sql") by (assumption || reflexivity).
Qed.

Lemma match_postgres_tail name tail :
  name <> "" -> no_char Re.newline name = true ->
  (forall y pos g k, y <> "" -> Re.exec suffix_re pos (y ++ tail) g k = None) ->
  (forall pos g, Re.exec suffix_re pos tail g accept = Some g) ->
  Re.match_ pattern ("postgres_" ++ name ++ tail) = Some (Some name).
Proof.
  intros Hne Hnl Hfail Hok. unfold Re.match_.
  change pattern with
    (Re.Seq Re.Bol (Re.Seq (Re.Lit "postgres_")
       (Re.Seq (Re.Group (Re.LazyPlus Re.Dot)) suffix_re))).
  cbn -[suffix_re Re.exec_lazy_plus].
  apply exec_lazy_plus_first; auto using no_newline_dot.
  replace (9 + String.length name - 9)%nat with (String.length name) by lia.
  rewrite substring_app_l. apply Hok.
Qed.

Lemma is_short_timestamp_length ts :
  is_short_timestamp ts -> String.length ts = 16.
Proof. intros (y1&y2&y3&y4&m1&m2&d1&d2&h1&h2&n1&n2&->&_). reflexivity. Qed.

Lemma short_suffix_fails y ts pos g k :
  y <> "" -> is_short_timestamp ts ->
  Re.exec suffix_re pos (y ++ "_full_" ++ ts) g k = None.
Proof.
  intros Hy Hts.
  destruct y as [|c1 [|c2 [|c3 [|c4 [|c5 y]]]]]; [congruence| | | | |].
  1-4: unfold suffix_re;
       cbn [Re.seq Re.exec String.append Re.strip_prefix];
       repeat match goal with
              | |- context [Ascii.eqb ?a ?b] =>
                  is_var b; destruct (Ascii.eqb a b)
              end; reflexivity.
  destruct (Re.exec suffix_re pos _ g k) eqn:E; [exfalso|reflexivity].
  match type of E with ?t = _ => assert (Hne : t <> None) by congruence end.
  apply (exec_bound _ None) in Hne; [|intros; exact I].
  cbn in Hne. rewrite length_app_s in Hne.
  cbn in Hne. rewrite (is_short_timestamp_length _ Hts) in Hne. lia.
Qed.

Lemma short_suffix_matches ts pos g :
  is_short_timestamp ts ->
  Re.exec suffix_re pos ("_full_" ++ ts) g accept = Some g.
Proof.
  intros (y1&y2&y3&y4&m1&m2&d1&d2&h1&h2&n1&n2&->&Hd).
  cbn in Hd.
  repeat (apply andb_true_iff in Hd as [?H Hd]).
  cbn. repeat match goal with H : Re.is_digit _ = true |- _ =>
                rewrite H; clear H end.
  reflexivity.
Qed.

Lemma no_dot_short_timestamp ts :
  is_short_timestamp ts -> no_char "." ("_full_" ++ ts) = true.
Proof.
  intros (y1&y2&y3&y4&m1&m2&d1&d2&h1&h2&n1&n2&->&Hd).
  cbn in Hd. repeat (apply andb_true_iff in Hd as [?H Hd]).
  cbn [String.append string_of_list_ascii no_char].
  repeat match goal with H : Re.is_digit _ = true |- _ =>
           rewrite (digit_not_dot _ H); clear H end.
  reflexivity.
Qed.

(** X3: the decoder does not care which of the extensions it strips
    follow the name: for a database name that is not empty, has no newline
    and contains neither [.tar] nor [.sql], a full timestamp, and any
    extension that stripping reduces to nothing ([.sql], [.sql.tar],
    [.sql.tar.gz], none at all, ...), the name is recovered. *)
Theorem decode_any_stripped_extension (db_name ts ext : string) :
  is_timestamp ts ->
  db_name <> "" ->
  no_char Re.newline db_name = true ->
  Py.contains ".tar" db_name = false ->
  Py.contains ".sql" db_name = false ->
  strip_extensions ext = "" ->
  extract_db_name_from_filename
    ("postgres_" ++ db_name ++ "_full_" ++ ts ++ ext) = Some db_name.
Proof.
  intros Hts Hne Hnl Htar Hsql Hext.
  pose proof (strip_extensions_backup_name db_name ("full_" ++ ts) ext
                (no_dot_timestamp ts Hts) Htar Hsql) as Hs.
  unfold extract_db_name_from_filename. fold (strip_extensions
    ("postgres_" ++ db_name ++ "_full_" ++ ts ++ ext)).
  change ("_full_" ++ ts ++ ext) with (String "_" ("full_" ++ ts) ++ ext).
  rewrite Hs, Hext, app_nil_r_s.
  change (String "_" ("full_" ++ ts)) with ("_full_" ++ ts).
  now rewrite match_postgres.
Qed.

Lemma decode_any_stripped_extension_witness :
  extract_db_name_from_filename
    "postgres_my_production_db_full_2026-01-07_23-45-12.sql.tar.gz"
  = Some "my_production_db".
Proof.
  refine (decode_any_stripped_extension "my_production_db"
            "2026-01-07_23-45-12" ".sql.tar.gz" _ _ _ _ _ _).
  - do 14 eexists. split; reflexivity.
  - discriminate.
  - reflexivity.
  - reflexivity.
  - reflexivity.
  - reflexivity.
Defined.

(** X4: the seconds of the timestamp are optional: a name whose
    timestamp is [YYYY-MM-DD_HH-MM] decodes like one with seconds. *)
Theorem decode_timestamp_without_seconds (db_name ts ext : string) :
  is_short_timestamp ts ->
  db_name <> "" ->
  no_char Re.newline db_name = true ->
  Py.contains ".tar" db_name = false ->
  Py.contains ".sql" db_name = false ->
  strip_extensions ext = "" ->
  extract_db_name_from_filename
    ("postgres_" ++ db_name ++ "_full_" ++ ts ++ ext) = Some db_name.
Proof.
  intros Hts Hne Hnl Htar Hsql Hext.
  pose proof (strip_extensions_backup_name db_name ("full_" ++ ts) ext
                (no_dot_short_timestamp ts Hts) Htar Hsql) as Hs.
  unfold extract_db_name_from_filename. fold (strip_extensions
    ("postgres_" ++ db_name ++ "_full_" ++ ts ++ ext)).
  change ("_full_" ++ ts ++ ext) with (String "_" ("full_" ++ ts) ++ ext).
  rewrite Hs, Hext, app_nil_r_s.
  change (String "_" ("full_" ++ ts)) with ("_full_" ++ ts).
  rewrite match_postgres_tail; auto.
  - intros y pos g k Hy. now apply short_suffix_fails.
  - intros pos g. now apply short_suffix_matches.
Qed.

Lemma decode_timestamp_without_seconds_witness :
  extract_db_name_from_filename "postgres_myapp_db_full_2026-01-07_22-30.sql"
  = Some "myapp_db".
Proof.
  refine (decode_timestamp_without_seconds "myapp_db" "2026-01-07_22-30"
            ".sql" _ _ _ _ _ _).
  - do 12 eexists. split; reflexivity.
  - discriminate.
  - reflexivity.
  - reflexivity.
  - reflexivity.
  - reflexivity.
Defined.

(** ** The MySQL handler *)

Ltac xrun_red :=
  cbv beta iota zeta delta
    [trace outcome fst snd bind ret raise tell ask try_except subprocess_run
     with_open shutil_copy2 typer_echo typer_confirm setup_logger
     logger_debug logger_info logger_warning logger_error shutil_which
     spawned copies errors_logged omap list_omap app negb andb orb
     Py.truthy_opt default fmap option_fmap option_map id].

Ltac xrun_step :=
  match goal with
  | |- context [match child_of ?w ?c with _ => _ end] =>
      destruct (child_of w c) eqn:?
  | |- context [if (?a <? ?b)%Z then _ else _] =>
      destruct (a <? b)%Z eqn:?
  | |- context [if (?a =? ?b)%Z then _ else _] =>
      destruct (a =? b)%Z eqn:?
  | |- context [match open_read ?w ?p with _ => _ end] =>
      destruct (open_read w p) eqn:?
  | |- context [match copy2 ?w ?p ?q with _ => _ end] =>
      destruct (copy2 w p q) eqn:?
  | |- context [if path_exists ?w ?p then _ else _] =>
      destruct (path_exists w p) eqn:?
  | |- context [if access_read ?w ?p then _ else _] =>
      destruct (access_read w p) eqn:?
  | |- context [match which ?w ?p with _ => _ end] =>
      destruct (which w p) eqn:?
  | |- context [if Py.truthy ?s then _ else _] =>
      destruct (Py.truthy s) eqn:?
  | |- context [match ?e with ValueError _ => _ | _ => _ end] =>
      destruct e eqn:?
  end.

Ltac xrun := xrun_red; repeat (xrun_step; xrun_red).

Ltac zclose :=
  intros; simplify_eq;
  repeat match goal with
         | H : (_ <? _)%Z = true |- _ => apply Z.ltb_lt in H
         | H : (_ <? _)%Z = false |- _ => apply Z.ltb_ge in H
         | H : (_ =? _)%Z = true |- _ => apply Z.eqb_eq in H
         | H : (_ =? _)%Z = false |- _ => apply Z.eqb_neq in H
         | H : _ /\ _ |- _ => destruct H
         end;
  cbn [call_timeout] in *;
  first [ reflexivity | tauto | lia | congruence | discriminate
        | (split; first [reflexivity | tauto | lia | congruence]) ].

(** X5: [validate_tools] of the MySQL handler looks for its two tools
    before anything else: when [mysqldump] or [mysql] is not found it
    raises a [RuntimeError] and no child process is started; when both are
    found, it succeeds or fails as the connection probe does. *)
Theorem mysql_validate_tools_checks_tools_first
    (self : MySQLHandler.t) (w : World) :
  (Py.truthy_opt (which w "mysqldump") && Py.truthy_opt (which w "mysql")
   = false ->
   spawned (trace (MySQLHandler.validate_tools self) w) = []
   /\ exists msg,
        outcome (MySQLHandler.validate_tools self) w
        = inl (RuntimeError msg))
  /\ (Py.truthy_opt (which w "mysqldump") && Py.truthy_opt (which w "mysql")
      = true ->
      spawned (trace (MySQLHandler.validate_tools self) w)
      = spawned (trace (MySQLHandler.validate_connection self) w)
      /\ outcome (MySQLHandler.validate_tools self) w
         = match outcome (MySQLHandler.validate_connection self) w with
           | inl e => inl e
           | inr _ => inr true
           end).
Proof.
  unfold MySQLHandler.validate_tools.
  split; intros H.
  - unfold trace, outcome.
    cbv beta iota zeta delta [bind shutil_which fst snd raise app spawned
                              omap list_omap].
    destruct (Py.truthy_opt (which w "mysqldump")); cbn [negb].
    + destruct (Py.truthy_opt (which w "mysql")); [discriminate|].
      cbn [negb]. split; [reflexivity | eauto].
    + split; [reflexivity | eauto].
  - apply andb_true_iff in H as [H1 H2]. unfold trace, outcome.
    cbv beta iota zeta delta [bind shutil_which fst snd raise
                              logger_debug tell ret].
    rewrite H1. cbv beta iota zeta delta [negb]. rewrite H2.
    cbv beta iota zeta delta [negb].
    destruct (MySQLHandler.validate_connection self w) as [tr [e|b]];
      cbn [fst snd app]; rewrite ?app_nil_r; split; reflexivity.
Qed.

Lemma mysql_validate_tools_checks_tools_first_witness :
  spawned (trace (MySQLHandler.validate_tools
                    (MySQLHandler.init sample_config)) quiet_world)
  = spawned (trace (MySQLHandler.validate_connection
                      (MySQLHandler.init sample_config)) quiet_world)
  /\ outcome (MySQLHandler.validate_tools (MySQLHandler.init sample_config))
       quiet_world = inr true.
Proof.
  exact (proj2 (mysql_validate_tools_checks_tools_first
                  (MySQLHandler.init sample_config) quiet_world) eq_refl).
Defined.

(** X6: a MySQL backup ends in one of two ways: it returns, which it does
    exactly when [mysqldump] exits with status 0 within the hour, or it
    raises a [RuntimeError] whose message is the one it has just logged at
    level ERROR; no other exception leaves it. *)
Theorem mysql_backup_wraps_errors
    (self : MySQLHandler.t) (database : string) (output_file : Path.t)
    (w : World) :
  let call :=
    mysql_call (MySQLHandler.password self) w
      (MySQLHandler.backup_cmd self database output_file) None 3600 in
  match outcome (MySQLHandler.backup self database output_file) w with
  | inr _ =>
      succeeds w call
      /\ errors_logged (trace (MySQLHandler.backup self database output_file)
                          w) = []
  | inl e =>
      ~ succeeds w call
      /\ exists msg,
           e = RuntimeError msg
           /\ errors_logged
                (trace (MySQLHandler.backup self database output_file) w)
              = [msg]
  end.
Proof.
  cbv zeta. unfold succeeds.
  mysql_start (MySQLHandler.password self); xrun;
    first [ zclose
          | (split; [zclose | eexists; split; reflexivity]) ].
Qed.

(** X7: a MySQL restore reports [Backup file not found] when the backup
    file cannot be opened because it does not exist, in which case no
    child process is started, and also when the file is there but the
    [mysql] client cannot be started because it does not exist. *)
Theorem mysql_restore_file_not_found
    (self : MySQLHandler.t) (database : string) (input_file : Path.t)
    (w : World) (missing : string) :
  let call :=
    mysql_call (MySQLHandler.password self) w
      (MySQLHandler.restore_cmd self database)
      (Some (Path.str input_file)) 3600 in
  (open_read w (Path.str input_file) = Some (FileNotFoundError missing) ->
   spawned (trace (MySQLHandler.restore self database input_file) w) = []
   /\ outcome (MySQLHandler.restore self database input_file) w
      = inl (RuntimeError
               ("Backup file not found: " ++ Path.str input_file)))
  /\ (open_read w (Path.str input_file) = None ->
      child_of w call = CannotStart (FileNotFoundError missing) ->
      outcome (MySQLHandler.restore self database input_file) w
      = inl (RuntimeError
               ("Backup file not found: " ++ Path.str input_file))).
Proof.
  cbv zeta. split.
  - intros Ho. mysql_start (MySQLHandler.password self); xrun; zclose.
  - intros Ho. mysql_start (MySQLHandler.password self); xrun; zclose.
Qed.

Lemma mysql_restore_file_not_found_witness :
  outcome (MySQLHandler.restore (MySQLHandler.init sample_config) "mydb"
             (Path.of_str "backup.sql"))
    {| os_environ := os_environ quiet_world;
       which := which quiet_world;
       child_of := fun _ => CannotStart (FileNotFoundError "mysql");
       open_read := open_read quiet_world;
       path_exists := path_exists quiet_world;
       access_read := access_read quiet_world;
       copy2 := copy2 quiet_world;
       confirm_answer := confirm_answer quiet_world;
       signal_name := signal_name quiet_world;
       load_config := load_config quiet_world;
       logger_setup := logger_setup quiet_world;
       postgres_method := postgres_method quiet_world |}
  = inl (RuntimeError "Backup file not found: backup.sql").
Proof.
  refine (proj2 (mysql_restore_file_not_found
                   (MySQLHandler.init sample_config) "mydb"
                   (Path.of_str "backup.sql") _ "mysql") _ _).
  - reflexivity.
  - reflexivity.
Defined.

Lemma contains_restore_failed err :
  Py.contains "Unknown database" ("Restore failed: " ++ err)
  = Py.contains "Unknown database" err.
Proof. now apply contains_app_no_first. Qed.

(** X8: when the [mysql] client of a restore exits with a non-zero status
    and has written to its error stream, the restore raises a
    [RuntimeError] with [Restore failed: ] and that text; and exactly when
    the text contains [Unknown database], a hint to create the database
    is appended. *)
Theorem mysql_restore_unknown_database_hint
    (self : MySQLHandler.t) (database : string) (input_file : Path.t)
    (w : World) (seconds rc : Z) (out err : string) :
  open_read w (Path.str input_file) = None ->
  child_of w (mysql_call (MySQLHandler.password self) w
                (MySQLHandler.restore_cmd self database)
                (Some (Path.str input_file)) 3600)
  = Runs seconds rc out err ->
  (seconds <= 3600)%Z -> rc <> 0%Z -> err <> "" ->
  outcome (MySQLHandler.restore self database input_file) w =
  inl (RuntimeError
         (if Py.contains "Unknown database" err
          then ("Restore failed: " ++ err) ++ nl
               ++ "Hint: Create the database first with: CREATE DATABASE "
               ++ database ++ ";"
          else "Restore failed: " ++ err)).
Proof.
  intros Ho Hc Hs Hrc Herr.
  assert (Ht : Py.truthy err = true) by (destruct err; [congruence | reflexivity]).
  rewrite <- contains_restore_failed.
  unfold MySQLHandler.restore, MySQLHandler._get_env, mysql_call, mysql_env,
    outcome in *.
  destruct (Py.truthy (MySQLHandler.password self)) eqn:Hp.
  all: cbv beta iota zeta delta
         [fst snd bind ret raise tell ask try_except subprocess_run
          with_open logger_debug logger_info logger_error default fmap
          option_fmap option_map id].
  all: rewrite Ho, Hc.
  all: apply Z.leb_le in Hs; rewrite Z.leb_antisym in Hs;
       apply negb_true_iff in Hs; apply Z.eqb_neq in Hrc.
  all: cbv beta iota zeta delta [fst snd andb negb]; rewrite Hs, Hrc.
  all: cbv beta iota zeta delta [fst snd andb negb]; rewrite Ht.
  all: destruct (Py.contains "Unknown database" ("Restore failed: " ++ err));
       reflexivity.
Qed.

Lemma mysql_restore_unknown_database_hint_witness :
  outcome (MySQLHandler.restore (MySQLHandler.init sample_config) "mydb"
             (Path.of_str "backup.sql"))
    {| os_environ := os_environ quiet_world;
       which := which quiet_world;
       child_of := fun _ =>
         Runs 1 1 "" "ERROR 1049 (42000): Unknown database 'mydb'";
       open_read := open_read quiet_world;
       path_exists := path_exists quiet_world;
       access_read := access_read quiet_world;
       copy2 := copy2 quiet_world;
       confirm_answer := confirm_answer quiet_world;
       signal_name := signal_name quiet_world;
       load_config := load_config quiet_world;
       logger_setup := logger_setup quiet_world;
       postgres_method := postgres_method quiet_world |}
  = inl (RuntimeError
           ("Restore failed: ERROR 1049 (42000): Unknown database 'mydb'"
            ++ nl ++ "Hint: Create the database first with: "
            ++ "CREATE DATABASE mydb;")).
Proof.
  refine (mysql_restore_unknown_database_hint
            (MySQLHandler.init sample_config) "mydb"
            (Path.of_str "backup.sql") _ 1 1 ""
            "ERROR 1049 (42000): Unknown database 'mydb'" _ _ _ _ _).
  - reflexivity.
  - reflexivity.
  - lia.
  - lia.
  - discriminate.
Defined.

Lemma split_nonempty s c : Py.split s c <> [].
Proof.
  induction s as [|a s IH]; cbn; [discriminate|].
  destruct (Ascii.eqb a c); [discriminate|].
  destruct (Py.split s c); [congruence | discriminate].
Qed.

(** Splitting gives more than one piece exactly when the separator
    occurs. *)
Lemma split_more_than_one s c :
  (1 <? length (Py.split s c))%nat = negb (no_char c s).
Proof.
  induction s as [|a s IH]; [reflexivity|].
  cbn [Py.split no_char]. rewrite (Ascii.eqb_sym c a).
  destruct (Ascii.eqb a c); cbn [negb andb].
  - pose proof (split_nonempty s c).
    destruct (Py.split s c); [congruence | reflexivity].
  - rewrite <- IH. pose proof (split_nonempty s c).
    destruct (Py.split s c); [congruence | reflexivity].
Qed.

(** X9: when its probe exits with status 0 in time, the existence check
    of the MySQL handler answers whether the output of the probe, stripped
    of surrounding white space, has more than one line: a header alone, or
    no output, means that the database does not exist. *)
Theorem mysql_database_exists_answer
    (self : MySQLHandler.t) (database : string) (w : World)
    (seconds : Z) (out err : string) :
  child_of w (mysql_call (MySQLHandler.password self) w
                (MySQLHandler._database_exists_cmd self database) None 10)
  = Runs seconds 0 out err ->
  (seconds <= 10)%Z ->
  outcome (MySQLHandler._database_exists self database) w
  = inr (negb (no_char Re.newline (Py.strip out))).
Proof.
  intros Hc Hs. rewrite <- split_more_than_one.
  pose proof (mysql_database_exists_assumes self database w) as H.
  rewrite Hc in H. rewrite H.
  apply Z.leb_le in Hs. rewrite Z.leb_antisym in Hs.
  apply negb_true_iff in Hs. now rewrite Hs.
Qed.

Lemma mysql_database_exists_answer_witness :
  outcome (MySQLHandler._database_exists (MySQLHandler.init sample_config)
             "mydb") quiet_world
  = inr false.
Proof.
  refine (mysql_database_exists_answer (MySQLHandler.init sample_config)
            "mydb" quiet_world 0 "" "" _ _).
  - reflexivity.
  - lia.
Defined.

(** ** The SQLite handler *)

Ltac sqlite_start :=
  unfold SQLiteHandler.validate_connection, SQLiteHandler.backup,
    SQLiteHandler.restore.

(** X10: a SQLite backup starts no child process.  When the database file
    does not exist it raises a [RuntimeError] and copies nothing;
    otherwise it copies the database file to the output file, once, and
    returns, or raises a [RuntimeError] when the copy fails. *)
Theorem sqlite_backup_copies_once
    (self : SQLiteHandler.t) (database : string) (output_file : Path.t)
    (w : World) :
  let src := Path.str (SQLiteHandler.db_path self) in
  let run := SQLiteHandler.backup self database output_file in
  spawned (trace run w) = []
  /\ if path_exists w src then
       copies (trace run w) = [ (src, Path.str output_file) ]
       /\ outcome run w =
          match copy2 w src (Path.str output_file) with
          | None => inr tt
          | Some e =>
              inl (RuntimeError
                     ("Unexpected error during backup: " ++ str_exn w e))
          end
     else
       copies (trace run w) = []
       /\ outcome run w =
          inl (RuntimeError ("Database file " ++ src ++ " does not exist")).
Proof.
  cbv zeta. sqlite_start. xrun; simplify_eq; repeat split; reflexivity.
Qed.

(** X11: a SQLite restore starts no child process and copies the backup
    file over the configured database file, once, whether or not that file
    exists and whatever database name it is given; it returns when the
    copy succeeds and otherwise raises a [RuntimeError], which says
    [Backup file not found] when the copy failed for that reason. *)
Theorem sqlite_restore_overwrites
    (self : SQLiteHandler.t) (database : string) (input_file : Path.t)
    (w : World) :
  let dst := Path.str (SQLiteHandler.db_path self) in
  let run := SQLiteHandler.restore self database input_file in
  spawned (trace run w) = []
  /\ copies (trace run w) = [ (Path.str input_file, dst) ]
  /\ outcome run w =
     match copy2 w (Path.str input_file) dst with
     | None => inr tt
     | Some (FileNotFoundError _) =>
         inl (RuntimeError
                ("Backup file not found: " ++ Path.str input_file))
     | Some e =>
         inl (RuntimeError
                ("Unexpected error during restore: " ++ str_exn w e))
     end.
Proof.
  cbv zeta. sqlite_start. xrun; simplify_eq; repeat split; reflexivity.
Qed.

(** X12: the SQLite handler accepts a database file that does not exist
    yet, as long as its directory exists: [validate_tools] and
    [validate_connection] return [True]; the backup that follows then
    fails because the file does not exist. *)
Theorem sqlite_validation_accepts_missing_file
    (self : SQLiteHandler.t) (database : string) (output_file : Path.t)
    (w : World) :
  path_exists w (Path.str (Path.parent (SQLiteHandler.db_path self)))
  = true ->
  path_exists w (Path.str (SQLiteHandler.db_path self)) = false ->
  outcome (SQLiteHandler.validate_tools self) w = inr true
  /\ outcome (SQLiteHandler.validate_connection self) w = inr true
  /\ outcome (SQLiteHandler.backup self database output_file) w
     = inl (RuntimeError
              ("Database file " ++ Path.str (SQLiteHandler.db_path self)
               ++ " does not exist")).
Proof.
  intros Hp Hf. split; [reflexivity|].
  sqlite_start. unfold outcome.
  cbv beta iota zeta delta
    [fst snd bind ret raise tell ask try_except logger_debug logger_info].
  rewrite Hp, Hf. split; reflexivity.
Qed.

Lemma sqlite_validation_accepts_missing_file_witness :
  outcome (SQLiteHandler.validate_connection
             (SQLiteHandler.init sample_config))
    {| os_environ := os_environ quiet_world;
       which := which quiet_world;
       child_of := child_of quiet_world;
       open_read := open_read quiet_world;
       path_exists := fun p => String.eqb p ".";
       access_read := access_read quiet_world;
       copy2 := copy2 quiet_world;
       confirm_answer := confirm_answer quiet_world;
       signal_name := signal_name quiet_world;
       load_config := load_config quiet_world;
       logger_setup := logger_setup quiet_world;
       postgres_method := postgres_method quiet_world |}
  = inr true.
Proof.
  refine (proj1 (proj2 (sqlite_validation_accepts_missing_file
                   (SQLiteHandler.init sample_config) "sqlite"
                   (Path.of_str "out.db") _ _ _))).
  - reflexivity.
  - reflexivity.
Defined.

(** ** The MongoDB handler *)

(** X13: [validate_tools] of the MongoDB handler raises a [RuntimeError]
    and starts no child process when [mongodump] or [mongorestore] is not
    found; and the connection probe is skipped, with success, when
    [mongosh] is not found. *)
Theorem mongo_validate_tools_checks_tools_first
    (self : MongoDBHandler.t) (w : World) :
  (Py.truthy_opt (which w "mongodump")
   && Py.truthy_opt (which w "mongorestore") = false ->
   spawned (trace (MongoDBHandler.validate_tools self) w) = []
   /\ exists msg,
        outcome (MongoDBHandler.validate_tools self) w
        = inl (RuntimeError msg))
  /\ (Py.truthy_opt (which w "mongosh") = false ->
      spawned (trace (MongoDBHandler.validate_connection self) w) = []
      /\ outcome (MongoDBHandler.validate_connection self) w = inr true)
  /\ (Py.truthy_opt (which w "mongodump")
      && Py.truthy_opt (which w "mongorestore") = true ->
      spawned (trace (MongoDBHandler.validate_tools self) w)
      = spawned (trace (MongoDBHandler.validate_connection self) w)
      /\ outcome (MongoDBHandler.validate_tools self) w
         = match outcome (MongoDBHandler.validate_connection self) w with
           | inl e => inl e
           | inr _ => inr true
           end).
Proof.
  split; [|split]; intros H.
  - unfold MongoDBHandler.validate_tools, trace, outcome.
    cbv beta iota zeta delta [bind shutil_which fst snd raise app spawned
                              omap list_omap].
    destruct (Py.truthy_opt (which w "mongodump")); cbn [negb].
    + destruct (Py.truthy_opt (which w "mongorestore")); [discriminate|].
      cbn [negb]. split; [reflexivity | eauto].
    + split; [reflexivity | eauto].
  - unfold MongoDBHandler.validate_connection, trace, outcome.
    cbv beta iota zeta delta [bind shutil_which fst snd raise logger_debug
                              tell ret].
    rewrite H. split; reflexivity.
  - apply andb_true_iff in H as [H1 H2].
    unfold MongoDBHandler.validate_tools, trace, outcome.
    cbv beta iota zeta delta [bind shutil_which fst snd raise
                              logger_debug tell ret].
    rewrite H1. cbv beta iota zeta delta [negb]. rewrite H2.
    cbv beta iota zeta delta [negb].
    destruct (MongoDBHandler.validate_connection self w) as [tr [e|b]];
      cbn [fst snd app]; rewrite ?app_nil_r; split; reflexivity.
Qed.

Lemma mongo_validate_tools_checks_tools_first_witness :
  outcome (MongoDBHandler.validate_tools (MongoDBHandler.init sample_config))
    quiet_world = inr true.
Proof.
  exact (proj2 (proj2 (proj2 (mongo_validate_tools_checks_tools_first
                  (MongoDBHandler.init sample_config) quiet_world)) eq_refl)).
Defined.

(** X14: without a user name the MongoDB handler passes no credentials:
    the argument lists of its probe, backup and restore are the tool, host
    and port followed by the arguments of the operation, whatever the
    password and the authentication database are. *)
Theorem mongo_anonymous_argv
    (self : MongoDBHandler.t) (database : string) (file : Path.t)
    (w : World) :
  let h := mongo_anonymous self in
  let argvs {A} (m : M A) := map call_argv (spawned (trace m w)) in
  let base tool :=
    [ tool; "--host"; MongoDBHandler.host self;
      "--port"; Py.str_int (MongoDBHandler.port self) ] in
  let target :=
    if Py.truthy database then database else MongoDBHandler.database self in
  argvs (MongoDBHandler.validate_connection h) =
    (if Py.truthy_opt (which w "mongosh")
     then [ base "mongosh" ++ [ "--eval"; "db.runCommand({ ping: 1 })" ] ]
     else [])%list
  /\ argvs (MongoDBHandler.backup h database file) =
       [ (base "mongodump"
          ++ [ ("--archive=" ++ Path.str file)%string; "--gzip" ]
          ++ if Py.truthy target then [ "--db"; target ] else [])%list ]
  /\ argvs (MongoDBHandler.restore h database file) =
       [ (base "mongorestore"
          ++ [ ("--archive=" ++ Path.str file)%string; "--gzip" ])%list ].
Proof.
  cbv beta zeta.
  rewrite mongo_validate_connection_spawned, mongo_backup_spawned,
    mongo_restore_spawned.
  unfold MongoDBHandler.validate_connection_cmd, MongoDBHandler.backup_cmd,
    MongoDBHandler.restore_cmd, MongoDBHandler._build_base_cmd,
    mongo_anonymous.
  cbn [MongoDBHandler.username MongoDBHandler.host MongoDBHandler.port
       MongoDBHandler.database Py.truthy].
  repeat split.
  - destruct (Py.truthy_opt (which w "mongosh")); reflexivity.
  - destruct (Py.truthy (if Py.truthy database then database
                         else MongoDBHandler.database self)); reflexivity.
Qed.

(** X15: the database name given to a MongoDB restore changes nothing but
    its first log line: the same child process is started and the outcome
    is the same for any two names.  A MongoDB backup given the empty name
    is the backup of the configured database. *)
Theorem mongo_restore_ignores_database
    (self : MongoDBHandler.t) (d1 d2 : string) (file : Path.t) (w : World) :
  spawned (trace (MongoDBHandler.restore self d1 file) w)
  = spawned (trace (MongoDBHandler.restore self d2 file) w)
  /\ outcome (MongoDBHandler.restore self d1 file) w
     = outcome (MongoDBHandler.restore self d2 file) w
  /\ tail (trace (MongoDBHandler.restore self d1 file) w)
     = tail (trace (MongoDBHandler.restore self d2 file) w)
  /\ MongoDBHandler.backup self "" file w
     = MongoDBHandler.backup self (MongoDBHandler.database self) file w.
Proof.
  split; [now rewrite !mongo_restore_spawned|].
  split; [|split].
  - mongo_start. xrun; reflexivity.
  - mongo_start. xrun; reflexivity.
  - unfold MongoDBHandler.backup, MongoDBHandler.backup_cmd.
    cbn [Py.truthy].
    destruct (Py.truthy (MongoDBHandler.database self)) eqn:H;
      rewrite ?H; reflexivity.
Qed.

(** X16: a MongoDB backup returns exactly when [mongodump] exits with
    status 0 within the hour.  A non-zero exit status becomes a
    [RuntimeError] that has been logged at level ERROR; every other failure
    of the child (timeout, tool that cannot be started) leaves the backup
    as the exception [subprocess] raised, with nothing logged. *)
Theorem mongo_backup_outcomes
    (self : MongoDBHandler.t) (database : string) (output_file : Path.t)
    (w : World) :
  let run := MongoDBHandler.backup self database output_file in
  let cmd := MongoDBHandler.backup_cmd self database output_file in
  match child_of w (mongo_call w cmd 3600) with
  | Runs seconds rc out err =>
      if (3600 <? seconds)%Z then
        outcome run w = inl (TimeoutExpired cmd 3600)
        /\ errors_logged (trace run w) = []
      else if (rc =? 0)%Z then
        outcome run w = inr tt /\ errors_logged (trace run w) = []
      else
        exists msg,
          outcome run w = inl (RuntimeError msg)
          /\ errors_logged (trace run w) = [msg]
          /\ String.prefix "Backup failed: " msg = true
  | Hangs =>
      outcome run w = inl (TimeoutExpired cmd 3600)
      /\ errors_logged (trace run w) = []
  | CannotStart e =>
      match e with
      | CalledProcessError _ _ _ _ => True
      | _ => outcome run w = inl e /\ errors_logged (trace run w) = []
      end
  end.
Proof.
  cbv zeta. mongo_start. unfold mongo_call.
  xrun; try (split; reflexivity); try exact I.
  all: eexists; split; [reflexivity|]; split; [reflexivity|].
  all: cbn [String.append]; rewrite !prefix_cons, prefix_nil; reflexivity.
Qed.

(** ** The commands *)

Lemma last_end {A} (l : list A) (x : A) : last (l ++ [x]) = Some x.
Proof. apply last_snoc. Qed.

Lemma prefix_error msg : String.prefix "Error: " ("Error: " ++ msg) = true.
Proof. cbn [String.append]. now rewrite !prefix_cons, prefix_nil. Qed.

Ltac command_end :=
  cbv beta iota zeta delta [fst snd];
  repeat rewrite app_nil_r; repeat rewrite app_assoc;
  first
    [ split; [reflexivity|]; eexists; split;
      [apply last_end | apply prefix_error]
    | eexists; apply last_end ].

(** X17: the restore command ends in one of two ways, whatever
    [perform_restore] does: it returns, and the last thing it printed is
    the [Logs: ] line; or it exits with status 1, and the last thing it
    printed is an [Error: ] line on the error stream.  No other exception
    leaves it. *)
Theorem restore_exits_with_status_1
    (perform_restore_ : DatabaseHandler -> string -> Path.t -> bool -> M unit)
    (file : string) (db_name config_file : option string) (yes : bool)
    (w : World) :
  let run := restore perform_restore_ postgres file db_name config_file yes in
  match outcome run w with
  | inr _ =>
      exists log_file,
        last (trace run w) = Some (Echo ("Logs: " ++ log_file) false)
  | inl e =>
      e = Exit 1
      /\ exists msg,
           last (trace run w) = Some (Echo ("Error: " ++ msg) true)
  end.
Proof.
  cbv zeta.
  unfold restore, restore_setup, restore_db_name, trace, outcome, guidance.
  rewrite decode_truthy.
  cbv beta iota zeta delta
    [fst snd bind ret raise tell ask try_except setup_logger
     typer_echo default restore_except id].
  destruct (load_config w config_file) as [e|loader];
    [destruct e; (split; [reflexivity|]; eexists; reflexivity)|].
  cbv beta iota zeta.
  destruct (logger_setup w _) as [e|];
    [destruct e; (split; [reflexivity|]; eexists; reflexivity)|].
  destruct (get_postgres_config loader) as [e|cfg];
    [destruct e; (split; [reflexivity|]; eexists; reflexivity)|].
  cbv beta iota zeta.
  destruct db_name as [n|];
    [|destruct (extract_db_name_from_filename _) as [n|]].
  - destruct (perform_restore_ _ n _ yes w) as [tr [e|u]];
      [destruct e|];
      cbv beta iota zeta delta [fst snd];
      repeat rewrite app_nil_r; repeat rewrite app_assoc;
      first [ split; [reflexivity|]; eexists; apply last_end
            | eexists; apply last_end ].
  - destruct (perform_restore_ _ n _ yes w) as [tr [e|u]];
      [destruct e|];
      cbv beta iota zeta delta [fst snd];
      repeat rewrite app_nil_r; repeat rewrite app_assoc;
      first [ split; [reflexivity|]; eexists; apply last_end
            | eexists; apply last_end ].
  - split; [reflexivity|]. eexists. reflexivity.
Qed.


(** ** Names of MySQL backups *)

Lemma app_eq_same_length (a b c1 c2 : string) :
  String.length c1 = String.length c2 ->
  a ++ c1 = b ++ c2 -> a = b /\ c1 = c2.
Proof.
  intros Hl. revert b. induction a as [|x a IH]; intros b H.
  - destruct b as [|y b]; [now split|].
    apply (f_equal String.length) in H. cbn in H.
    rewrite length_app_s in H. lia.
  - destruct b as [|y b].
    + apply (f_equal String.length) in H. cbn in H.
      rewrite length_app_s in H. lia.
    + cbn in H. injection H as -> H. apply IH in H as [-> ->]. now split.
Qed.

(** X19: at valid times, two MySQL backups get the same file name only
    when they are backups of the same database name taken in the same
    second. *)
Theorem mysql_backup_names_differ
    (h1 h2 : MySQLHandler.t) (d1 d2 : string) (t1 t2 : datetime) :
  valid_datetime t1 -> valid_datetime t2 ->
  MySQLHandler.get_default_backup_name h1 d1 t1
  = MySQLHandler.get_default_backup_name h2 d2 t2 ->
  d1 = d2 /\ timestamp t1 = timestamp t2.
Proof.
  intros H1 H2. unfold MySQLHandler.get_default_backup_name.
  change (strftime t1 _) with (timestamp t1).
  change (strftime t2 _) with (timestamp t2).
  pose proof (is_timestamp_length _ (timestamp_is_timestamp _ H1)) as L1.
  pose proof (is_timestamp_length _ (timestamp_is_timestamp _ H2)) as L2.
  cbn [String.append]. intros H. injection H as H.
  apply app_eq_same_length in H as [-> H].
  - split; [reflexivity|].
    injection H as H.
    apply (app_eq_same_length _ _ ".sql" ".sql") in H; [tauto | reflexivity].
  - cbn [String.length]. rewrite !length_app_s, L1, L2. reflexivity.
Qed.

Lemma mysql_backup_names_differ_witness :
  "mydb" = "mydb" /\ timestamp sample_time = timestamp sample_time.
Proof.
  refine (mysql_backup_names_differ (MySQLHandler.init sample_config)
            (MySQLHandler.init sample_config) "mydb" "mydb"
            sample_time sample_time _ _ eq_refl).
  - unfold valid_datetime; cbn; lia.
  - unfold valid_datetime; cbn; lia.
Defined.

(** ** More on the MySQL handler *)

(** X20: a MySQL restore returns exactly when the backup file opens and
    the [mysql] client exits with status 0 within the hour.  Every failure
    leaves it as a [RuntimeError]; the message has been logged at level
    ERROR, except for [Backup file not found], which is raised without
    being logged. *)
Theorem mysql_restore_wraps_errors
    (self : MySQLHandler.t) (database : string) (input_file : Path.t)
    (w : World) :
  let run := MySQLHandler.restore self database input_file in
  let call :=
    mysql_call (MySQLHandler.password self) w
      (MySQLHandler.restore_cmd self database)
      (Some (Path.str input_file)) 3600 in
  match outcome run w with
  | inr _ =>
      open_read w (Path.str input_file) = None /\ succeeds w call
      /\ errors_logged (trace run w) = []
  | inl e =>
      ~ (open_read w (Path.str input_file) = None /\ succeeds w call)
      /\ exists msg,
           e = RuntimeError msg
           /\ (errors_logged (trace run w) = [msg]
               \/ (errors_logged (trace run w) = []
                   /\ msg = "Backup file not found: "
                            ++ Path.str input_file))
  end.
Proof.
  cbv zeta. unfold succeeds.
  mysql_start (MySQLHandler.password self); xrun.
  all: first
    [ (split; [zclose|]; split; [zclose | reflexivity])
    | (split; [intros [? ?]; zclose|]; eexists; split; [reflexivity|];
       first [ left; reflexivity | right; split; reflexivity ]) ].
Qed.

(** X21: the environment of a child process of the MySQL handler is the
    environment of the process with at most [MYSQL_PWD] changed: every
    other variable is passed on as it is, and [MYSQL_PWD] is the configured
    password, or, when that is empty, whatever the process itself has. *)
Theorem mysql_environment_is_inherited
    (self : MySQLHandler.t) (database : string) (file : Path.t)
    (w : World) :
  let p := MySQLHandler.password self in
  let inherited (c : proc_call) :=
    (forall k, k <> "MYSQL_PWD" -> call_env c !! k = os_environ w !! k)
    /\ call_env c !! "MYSQL_PWD"
       = if Py.truthy p then Some p else os_environ w !! "MYSQL_PWD" in
  Forall inherited
    (spawned (trace (MySQLHandler.validate_connection self) w))
  /\ Forall inherited
       (spawned (trace (MySQLHandler._database_exists self database) w))
  /\ Forall inherited
       (spawned (trace (MySQLHandler.backup self database file) w))
  /\ Forall inherited
       (spawned (trace (MySQLHandler.restore self database file) w)).
Proof.
  cbv zeta.
  assert (Hi : forall cmd stdin t,
    (forall k, k <> "MYSQL_PWD" ->
       call_env (mysql_call (MySQLHandler.password self) w cmd stdin t) !! k
       = os_environ w !! k)
    /\ call_env (mysql_call (MySQLHandler.password self) w cmd stdin t)
         !! "MYSQL_PWD"
       = if Py.truthy (MySQLHandler.password self)
         then Some (MySQLHandler.password self)
         else os_environ w !! "MYSQL_PWD").
  { intros cmd stdin t. unfold mysql_call, mysql_env. cbn [call_env].
    destruct (Py.truthy (MySQLHandler.password self)).
    - split; [|apply lookup_insert_eq].
      intros k Hk. now apply lookup_insert_ne.
    - split; reflexivity. }
  pose proof (mysql_with_password_id self) as Hid.
  pose proof (mysql_validate_connection_spawned self
                (MySQLHandler.password self) w) as H1.
  pose proof (mysql_database_exists_spawned self
                (MySQLHandler.password self) database w) as H2.
  pose proof (mysql_backup_spawned self (MySQLHandler.password self)
                database file w) as H3.
  pose proof (mysql_restore_spawned self (MySQLHandler.password self)
                database file w) as H4.
  rewrite Hid in H1, H2, H3, H4. rewrite H1, H2, H3, H4.
  repeat split; try (constructor; [apply Hi | constructor]).
  destruct (open_read w (Path.str file));
    [constructor | constructor; [apply Hi | constructor]].
Qed.

(** ** The base name of the backup file *)

Lemma split_app_sep a b c :
  Py.split (a ++ String c b) c = (Py.split a c ++ Py.split b c)%list.
Proof.
  induction a as [|x a IH].
  - cbn [String.append Py.split]. now rewrite Ascii.eqb_refl.
  - cbn [String.append Py.split]. rewrite IH.
    destruct (Ascii.eqb x c); [reflexivity|].
    pose proof (split_nonempty a c).
    destruct (Py.split a c); [congruence | reflexivity].
Qed.

Lemma split_no_sep b c : no_char c b = true -> Py.split b c = [b].
Proof.
  induction b as [|x b IH]; [reflexivity|].
  cbn [no_char Py.split]. rewrite (Ascii.eqb_sym c x). intros H.
  apply andb_true_iff in H as [Hx H]. apply negb_true_iff in Hx.
  now rewrite Hx, IH.
Qed.

(** X22: of a path [<directory>/<base>] the restore command looks at
    [<base>] alone: when [<base>] has no slash and is neither empty nor
    [.], it is the name of the path, so the directory has no part in the
    decoding of the database name. *)
Theorem path_name_is_base_name (directory base : string) :
  no_char "/" base = true -> base <> "" -> base <> "." ->
  Path.name (Path.of_str (directory ++ "/" ++ base)) = base
  /\ extract_db_name_from_filename
       (Path.name (Path.of_str (directory ++ "/" ++ base)))
     = extract_db_name_from_filename base.
Proof.
  intros Hs He Hd.
  assert (H : Path.name (Path.of_str (directory ++ "/" ++ base)) = base).
  { unfold Path.name, Path.of_str. cbn [Path.parts].
    change ("/" ++ base) with (String Path.slash base).
    rewrite split_app_sep, (split_no_sep base) by exact Hs.
    rewrite filter_app. cbn [filter list_filter].
    assert (Hk : Path.keep_part base = true).
    { unfold Path.keep_part.
      destruct (String.eqb_spec base ""); [congruence|].
      destruct (String.eqb_spec base "."); [congruence | reflexivity]. }
    destruct (decide (Path.keep_part base)) as [_|Hn];
      [|rewrite Hk in Hn; exfalso; apply Hn; exact I].
    apply List.last_last. }
  split; [exact H | now rewrite H].
Qed.

Lemma path_name_is_base_name_witness :
  Path.name
    (Path.of_str "backups/old/postgres_mydb_full_2026-01-07_23-45-12.sql")
  = "postgres_mydb_full_2026-01-07_23-45-12.sql".
Proof.
  refine (proj1 (path_name_is_base_name "backups/old"
            "postgres_mydb_full_2026-01-07_23-45-12.sql" _ _ _)).
  - reflexivity.
  - discriminate.
  - discriminate.
Defined.
